(** * coffea.processor.work_queue_tools: chunk sizing, task resubmission
      and accumulation scheduling

    A shallow embedding of the scheduling logic of
    [src/coffea/processor/work_queue_tools.py] and the properties of it
    that the specification relies on.

    Conventions of the embedding.
    - The code is modelled as it is written. A call whose positional
      arguments do not fit the parameter list of the function raises
      [TypeError]; a name that is read and bound nowhere raises [NameError]
      or [UnboundLocalError]; an attribute read on a value that has none
      raises [AttributeError].
    - A Python exception is a value of [exn], without its message where
      the message depends on the version of Python: [TypeError f] is the
      error of a call of [f] whose arguments do not fit, [AttributeError a]
      the one of reading the attribute [a]. A function that may raise
      returns [result]. A function that changes the queue returns the queue
      it leaves together with its result, also when it raises.
    - Python [int] is [Z]; a Python [float] is a number of [Q]. The
      arithmetic on doubles (division, product, sum) is a parameter of the
      estimator, and so are [math.log2], [numpy.quantile] and
      [scipy.stats.linregress]; the draw of the random generator is an
      explicit input.
    - The operating system, the Work Queue backend and the callbacks of the
      user are outside the file: what they answer is an input. *)

From Stdlib Require Import ZArith QArith Qround Lia Bool.
From stdpp Require Import base option list sorting gmap strings.

Local Open Scope Z_scope.

(** ** Exceptions and results *)

Inductive exn : Type :=
| KeyError (key : string)
| RuntimeError (msg : string)
| TypeError (callee : string)
| NameError (name : string)
| UnboundLocalError (name : string)
| AttributeError (attribute : string)
| OSError (msg : string)
| ZeroDivisionError.

Inductive result (A : Type) : Type :=
| Ok (a : A)
| Raise (e : exn).

Arguments Ok {A} a.
Arguments Raise {A} e.

#[global] Instance result_ret : MRet result := fun A a => Ok a.

#[global] Instance result_bind : MBind result := fun A B k r =>
  match r with
  | Ok a => k a
  | Raise e => Raise e
  end.

(** ** Numbers *)

Definition Qlt_bool (x y : Q) : bool := negb (Qle_bool y x).

(** Python truthiness of a number: [if x:] *)
Definition truthy (x : Q) : bool := negb (Qeq_bool x 0).

(** [max(a, b)] and [min(a, b)] of Python on numbers: the first argument
    wins a tie. *)
Definition py_max (a b : Q) : Q := if Qlt_bool a b then b else a.
Definition py_min (a b : Q) : Q := if Qlt_bool b a then b else a.

(** [min(lst)] of a non-empty list, [d] is only used for the empty one *)
Definition py_min_list (d : Q) (lst : list Q) : Q :=
  match lst with
  | [] => d
  | x :: rest => fold_left py_min rest x
  end.

(** [math.ceil(a / b)] for integers, [b <> 0]; the quotient of the doubles
    has the same ceiling for [a] below 2^53, as numbers of events are *)
Definition ceil_div (a b : Z) : Z := - ((- a) / b).

(** ** Sorting *)

Fixpoint insert_by {A : Type} (key : A -> Q) (x : A) (l : list A) : list A :=
  match l with
  | [] => [x]
  | y :: ys =>
    if Qle_bool (key x) (key y) then x :: y :: ys
    else y :: insert_by key x ys
  end.

(** [lst.sort(key=...)]: the sort of Python is stable, and so is this
    insertion sort, so both return the same list *)
Definition sort_by {A : Type} (key : A -> Q) (l : list A) : list A :=
  foldr (insert_by key) [] l.

Module Estimator.

(** ** _sample_chunksize *)

(** [random.choices([a, b], weights=[wa, wb])[0]]: the generator draws [u]
    uniformly in [0, 1), scales it by the total weight and picks the first
    element whose cumulative weight exceeds it. *)
Definition random_choices2 {A : Type} (a b : A) (wa wb : Z) (u : Q) : A :=
  if Qlt_bool (u * inject_Z (wa + wb)) (inject_Z wa) then a else b.

(** [_sample_chunksize(chunksize)], the draw of the generator made explicit *)
Definition _sample_chunksize (u : Q) (chunksize : Z) : Z :=
  random_choices2 chunksize (Z.max (chunksize / 2) 1) 90 10 u.

(** ** _floor_to_pow2, _compute_chunksize_target and _compute_chunksize *)

Section WithLibraries.

(** [math.floor(math.log2(value))] for [1 <= value]. [math.log2] returns a
    double: where the exact logarithm lies within a rounding error below an
    integer, it returns that integer. *)
Variable floor_log2 : Q -> Z.

(** the division, the product and the sum of two doubles *)
Variable float_div float_mul float_add : Q -> Q -> Q.

(** [_floor_to_pow2(value)]. The exponent is not negative for the
    logarithm of a value that is 1 at least, so that [pow] returns an
    integer. *)
Definition _floor_to_pow2 (value : Q) : Z :=
  if Qlt_bool value 1 then 1
  else 2 ^ floor_log2 value.

(** [numpy.quantile(a, q, interpolation="nearest")] for one [q] *)
Variable quantile : list Q -> Q -> Q.

(** [scipy.stats.linregress(x, y)]: [Some (slope, intercept)], or [None]
    when the call raises or a coefficient is NaN *)
Variable linregress : list Q -> list Q -> option (Q * Q).

(** [e / max(1, target)] of a pair [(target, e)], a pair being
    (resource, events) *)
Definition avg_of (p : Q * Q) : Q := float_div (snd p) (py_max 1 (fst p)).

Definition avgs_of (pairs : list (Q * Q)) : list Q := map avg_of pairs.

(** The loop [for (i, avg) in enumerate(avgs): if avg >= quantiles[0]:
    pairs_filtered.append(pairs[i])]. The default of [nth] is not used:
    [avgs] is as long as [pairs]. *)
Definition pairs_filtered (pairs : list (Q * Q)) : list (Q * Q) :=
  let avgs := avgs_of pairs in
  let quantile0 := quantile avgs (1 # 4) in
  foldl (fun kept '(i, avg) =>
           if Qle_bool quantile0 avg then kept ++ [nth i pairs (0%Q, 0%Q)]
           else kept)
        [] (zip (seq 0 (length avgs)) avgs).

(** slope and intercept after the sanity check on the regression *)
Definition accepted_fit (pairs : list (Q * Q)) : Q * Q :=
  let kept := pairs_filtered pairs in
  match linregress (map fst kept) (map snd kept) with
  | Some (slope, intercept) =>
    if Qlt_bool slope 0 || Qlt_bool 0 intercept
    then (quantile (avgs_of pairs) (1 # 2), 0%Q)
    else (slope, intercept)
  | None => (quantile (avgs_of pairs) (1 # 2), 0%Q)
  end.

(** [pairs] are (resource, events); the result is [None] or [org] *)
Definition _compute_chunksize_target (target : Q) (pairs : list (Q * Q))
  : option Q :=
  match pairs with
  | [] => None
  | (r0, _) :: _ =>
    if Qlt_bool r0 0 then None
    else
      let fit := accepted_fit pairs in
      Some (float_add (float_mul (fst fit) target) (snd fit))
  end.

(** a sample is (events, wall time, memory) *)
Definition report : Type := Z * Q * Q.

Definition time_pairs (task_reports : list report) : list (Q * Q) :=
  map (fun '(evs, time, mem) => (time, inject_Z evs)) task_reports.

Definition memory_pairs (task_reports : list report) : list (Q * Q) :=
  map (fun '(evs, time, mem) => (mem, inject_Z evs)) task_reports.

(** [if target: ... = _compute_chunksize_target(target, pairs)] *)
Definition estimate_for (target : option Q) (pairs : list (Q * Q))
  : option Q :=
  match target with
  | Some t => if truthy t then _compute_chunksize_target t pairs else None
  | None => None
  end.

(** [[c for c in [chunksize_time, chunksize_memory] if c]] *)
Definition candidates (chunksize_time chunksize_memory : option Q)
  : list Q :=
  omap (fun c => match c with
                 | Some v => if truthy v then Some v else None
                 | None => None
                 end) [chunksize_time; chunksize_memory].

(** the size chosen before it is floored *)
Definition chosen_size (base_chunksize : Z) (candidate_sizes : list Q) : Q :=
  match candidate_sizes with
  | [] => inject_Z base_chunksize
  | _ => py_min_list 0 candidate_sizes
  end.

(** The estimates of the two dimensions. [resource_targets.get("wall_time",
    None)] tolerates a missing key, [resource_targets["memory"]] does not. *)
Definition dimension_estimates
    (resource_targets : option (gmap string Q)) (task_reports : list report)
  : result (option Q * option Q) :=
  match resource_targets with
  | Some targets =>
    if (1 <? Z.of_nat (length task_reports))
    then
      let chunksize_time :=
        estimate_for (targets !! "wall_time") (time_pairs task_reports) in
      match targets !! "memory" with
      | None => Raise (KeyError "memory")
      | Some target_memory =>
        Ok (chunksize_time,
            estimate_for (Some target_memory) (memory_pairs task_reports))
      end
    else Ok (None, None)
  | None => Ok (None, None)
  end.

(** [_floor_to_pow2] raises on NaN ([ValueError], which the [except]
    branch turns into the base size) and on an infinite value only; the
    numbers of [Q] contain neither. *)
Definition _compute_chunksize (base_chunksize : Z)
    (resource_targets : option (gmap string Q)) (task_reports : list report)
  : result Z :=
  est ← dimension_estimates resource_targets task_reports;
  let candidate_sizes := candidates (fst est) (snd est) in
  Ok (_floor_to_pow2 (chosen_size base_chunksize candidate_sizes)).

End WithLibraries.

(** What the theorems ask of the logarithm, where they ask anything: it is
    not negative from 1 on, it does not decrease, and it is exact at the
    powers of two. *)
Record LogFacts (floor_log2 : Q -> Z) : Prop := mkLogFacts {
  floor_log2_nonneg : forall v : Q, (1 <= v)%Q -> 0 <= floor_log2 v;
  floor_log2_mono : forall v w : Q,
    (1 <= v)%Q -> (v <= w)%Q -> floor_log2 v <= floor_log2 w;
  floor_log2_pow2 : forall k : Z, 0 <= k -> floor_log2 (inject_Z (2 ^ k)) = k
}.

(** ** Readings of the library calls

    They are used to run the estimator on concrete samples; the theorems
    below hold for every arithmetic, [quantile] and [linregress], and for
    every logarithm, with [LogFacts] where they say so. On the samples they
    are run on, the exact logarithms, quotients, products and sums are the
    ones the doubles give, up to a rounding that does not move the result
    across a power of two. *)

(** the logarithm taken exactly: for [1 <= value] the floor of the binary
    logarithm of [value] is that of its integer part *)
Definition floor_log2_exact (value : Q) : Z := Z.log2 (Qfloor value).

(** [numpy.around]: to the nearest integer, to the even one at a tie *)
Definition round_half_even (h : Q) : Z :=
  let below := Qfloor h in
  let fraction := (h - inject_Z below)%Q in
  if Qlt_bool fraction (1 # 2) then below
  else if Qlt_bool (1 # 2) fraction then below + 1
  else if Z.even below then below else below + 1.

(** [numpy.quantile(a, q, interpolation="nearest")]: the element of the
    sorted sample at the index [around(q * (len(a) - 1))] *)
Definition quantile_nearest (a : list Q) (q : Q) : Q :=
  let sorted := sort_by id a in
  let index := round_half_even (q * inject_Z (Z.of_nat (length a) - 1)) in
  nth (Z.to_nat index) sorted 0%Q.

Definition Qsum (l : list Q) : Q := foldr Qplus 0%Q l.

Definition Qmean (l : list Q) : Q :=
  (Qsum l / inject_Z (Z.of_nat (length l)))%Q.

(** least squares of [y] on [x]; no fit when [x] has no variance *)
Definition linregress_exact (x y : list Q) : option (Q * Q) :=
  let xm := Qmean x in
  let ym := Qmean y in
  let ssxm := Qsum (map (fun a => (a - xm) * (a - xm))%Q x) in
  let ssxym :=
    Qsum (map (fun ab => (fst ab - xm) * (snd ab - ym))%Q (zip x y)) in
  if Qeq_bool ssxm 0 then None
  else
    let slope := (ssxym / ssxm)%Q in
    Some (slope, (ym - slope * xm)%Q).

End Estimator.

(** ** The estimator in the words of the specification

    The estimator as the amended claim C5 describes it, written down on
    its own, to be compared with [_compute_chunksize]. *)

Module EstimatorSpec.

Section WithLibraries.

Variable floor_log2 : Q -> Z.
Variable float_div float_mul float_add : Q -> Q -> Q.
Variable quantile : list Q -> Q -> Q.
Variable linregress : list Q -> list Q -> option (Q * Q).

(** a sample of one dimension: the resource measured and the events *)
Record Sample : Type := mkSample { resource : Q; events : Z }.

(** the samples as (resource, events) pairs *)
Definition pairs_of (samples : list Sample) : list (Q * Q) :=
  map (fun s => (resource s, inject_Z (events s))) samples.

(** events per unit of resource, the resource counted as 1 at least *)
Definition ratio (s : Sample) : Q :=
  float_div (inject_Z (events s))
            (if Qlt_bool 1 (resource s) then resource s else 1%Q).

(** the samples whose ratio is not below the 25th percentile of the ratios *)
Definition kept_samples (samples : list Sample) : list Sample :=
  let percentile25 := quantile (map ratio samples) (1 # 4) in
  filter (fun s => Is_true (Qle_bool percentile25 (ratio s))) samples.

(** The projection for one dimension: the regression of the events on the
    resource over the samples kept, taken at the target, when it exists
    with a slope that is not negative and an intercept that is not
    positive; the median ratio times the target otherwise. *)
Definition projection (target : Q) (samples : list Sample) : Q :=
  let kept := kept_samples samples in
  let median := quantile (map ratio samples) (1 # 2) in
  match linregress (map resource kept)
                   (map (fun s => inject_Z (events s)) kept) with
  | Some (slope, intercept) =>
    if Qle_bool 0 slope && Qle_bool intercept 0
    then float_add (float_mul slope target) intercept
    else float_add (float_mul median target) 0
  | None => float_add (float_mul median target) 0
  end.

(** A dimension gives an estimate when its target is set and not 0, there
    is a sample, and the resource of the first sample is not negative. *)
Definition dimension_estimate (target : option Q) (samples : list Sample)
  : option Q :=
  match target, samples with
  | Some t, first :: _ =>
    if Qeq_bool t 0 || Qlt_bool (resource first) 0 then None
    else Some (projection t samples)
  | _, _ => None
  end.

(** the least of the estimates that are there and not 0, the one of the
    wall time at a tie; the base size when there is none *)
Definition chosen (base_size : Z) (time memory : option Q) : Q :=
  let usable (e : option Q) :=
    match e with
    | Some v => if Qeq_bool v 0 then None else Some v
    | None => None
    end in
  match usable time, usable memory with
  | Some t, Some m => if Qlt_bool m t then m else t
  | Some t, None => t
  | None, Some m => m
  | None, None => inject_Z base_size
  end.

Definition estimate (base_size : Z) (target_time : option Q)
    (target_memory : Q) (samples : list (Z * Q * Q)) : Z :=
  let time_samples := map (fun '(evs, time, mem) => mkSample time evs) samples in
  let memory_samples :=
    map (fun '(evs, time, mem) => mkSample mem evs) samples in
  Estimator._floor_to_pow2 floor_log2
    (chosen base_size
       (dimension_estimate target_time time_samples)
       (dimension_estimate (Some target_memory) memory_samples)).

End WithLibraries.

End EstimatorSpec.

(** ** Work items, tasks and the queue *)

Module Tasks.

(** Modelled from the spec: the class [WorkItem] of
    [coffea.processor.executor] and its [__len__] are not in the file; the
    spec (section 3) gives the fields and [Size = range_stop - range_start]. *)
Record WorkItem : Type := mkWorkItem {
  dataset : string;
  filename : string;
  treename : string;
  entrystart : Z;
  entrystop : Z;
  fileuuid : string;
  usermeta : string
}.

Definition len_item (w : WorkItem) : Z := entrystop w - entrystart w.

(** [specify_category] *)
Inductive Category : Type := preprocessing | processing | accumulating.

(** ["pre_{}".format(n)], ["p_{}".format(n)], ["accum_{}".format(n)] *)
Record ItemId : Type := mkItemId { prefix : string; number : Z }.

(** The result codes of Work Queue, as far as the file tells them apart:
    0, [WORK_QUEUE_RESULT_RESOURCE_EXHAUSTION], any other failure, and the
    code of a task that has not run. *)
Inductive WQResult : Type :=
| WQ_SUCCESS
| WQ_RESOURCE_EXHAUSTION
| WQ_FAILURE (code : Z)
| WQ_UNKNOWN.

(** what the parameter [chunks_accum_in_mem] of [AccumCoffeaWQTask] may
    receive: a number, the item id [clone] passes in its place, or the
    directory [_submit_accum_tasks] passes in its place *)
Inductive PyVal : Type :=
| PyInt (z : Z)
| PyItemId (i : ItemId)
| PyStr (s : string).

(** the payload of the three task classes *)
Inductive Work (T : Type) : Type :=
| PreProc (item : WorkItem)
| Proc (item : WorkItem)
| Accum (tasks_to_accumulate : list T) (chunks_accum_in_mem : PyVal).

Arguments PreProc {T} item.
Arguments Proc {T} item.
Arguments Accum {T} tasks_to_accumulate chunks_accum_in_mem.

(** [CoffeaWQTask]: the fields set by the constructors, and the fields the
    backend fills in when the task comes back from [wait] *)
#[warnings="-register-all"]
Inductive Task : Type := mkTask {
  itemid : ItemId;
  category : Category;
  size : Z;
  retries_to_go : Z;
  work : Work Task;
  fin_size : Q;
  wq_result : WQResult;
  return_status : Z;
  fout_size : Q;
  cmd_execution_time : Q;
  memory_measured : Q
}.

(** [len(task)] *)
Definition len (t : Task) : Z := size t.

Definition set_retries_to_go (t : Task) (r : Z) : Task :=
  mkTask (itemid t) (category t) (size t) r (work t) (fin_size t)
         (wq_result t) (return_status t) (fout_size t)
         (cmd_execution_time t) (memory_measured t).

(** the options of the executor the scheduler reads *)
Record Executor : Type := mkExecutor {
  retries : Z;
  split_on_exhaustion : bool;
  chunksize : Z;
  dynamic_chunksize : option (gmap string Q);
  chunks_per_accum : Z;
  chunks_accum_in_mem : Z;
  events_total : Z
}.

(** The queue: its executor, the latest chunk size, the class counter
    [CoffeaWQTask.tasks_counter], the statistics and the tasks handed to
    [submit] that have not come back, oldest first. *)
Record Queue : Type := mkQueue {
  executor : Executor;
  current_chunksize : Z;
  tasks_counter : Z;
  stats_coffea : gmap string Z;
  submitted : list Task
}.

Definition set_counter (q : Queue) (n : Z) : Queue :=
  mkQueue (executor q) (current_chunksize q) n (stats_coffea q) (submitted q).

Definition set_stats (q : Queue) (s : gmap string Z) : Queue :=
  mkQueue (executor q) (current_chunksize q) (tasks_counter q) s (submitted q).

Definition set_submitted (q : Queue) (l : list Task) : Queue :=
  mkQueue (executor q) (current_chunksize q) (tasks_counter q)
          (stats_coffea q) l.

(** [queue.submit(t)] *)
Definition submit (q : Queue) (t : Task) : Queue :=
  set_submitted q (submitted q ++ [t]).

(** [Stats.inc] and [Stats.min] *)
Definition stats_inc (stat : string) (delta : Z) (s : gmap string Z)
  : gmap string Z :=
  match s !! stat with
  | Some v => <[stat := v + delta]> s
  | None => <[stat := delta]> s
  end.

Definition stats_min (stat : string) (value : Z) (s : gmap string Z)
  : gmap string Z :=
  match s !! stat with
  | Some v => <[stat := Z.min v value]> s
  | None => <[stat := value]> s
  end.

(** [CoffeaWQTask.__init__(self, queue, fn_wrapper, infile_function,
    item_args, itemid, tmpdir)] has six parameters after [self]; [given] is
    the number of arguments the call passes. A call that does not fit
    raises [TypeError] before the body is entered. The body adds one to the
    class counter and takes the retries from the executor; the files it
    writes and the calls it makes on the backend are taken to succeed.
    [self] holds the fields the subclass sets. *)
Definition CoffeaWQTask___init__ (given : nat) (q : Queue) (self : Task)
  : Queue * result Task :=
  if (given =? 6)%nat
  then (set_counter q (tasks_counter q + 1),
        Ok (set_retries_to_go self (retries (executor q))))
  else (q, Raise (TypeError "CoffeaWQTask.__init__")).

(** [if not itemid: itemid = "<prefix>_{}".format(CoffeaWQTask.tasks_counter)] *)
Definition itemid_or (q : Queue) (pre : string) (id : option ItemId)
  : ItemId :=
  match id with
  | Some i => i
  | None => mkItemId pre (tasks_counter q)
  end.

(** [PreProcCoffeaWQTask.__init__]: the call
    [super().__init__(queue, infile_function, [item], itemid, tmpdir)]
    passes five arguments *)
Definition PreProcCoffeaWQTask (q : Queue) (item : WorkItem)
    (id : option ItemId) : Queue * result Task :=
  CoffeaWQTask___init__ 5 q
    (mkTask (itemid_or q "pre" id) preprocessing 1 0 (PreProc item) 0%Q
            WQ_UNKNOWN 0 0%Q 0%Q 0%Q).

(** [ProcCoffeaWQTask.__init__], with the same call of the base class *)
Definition ProcCoffeaWQTask (q : Queue) (item : WorkItem)
    (id : option ItemId) : Queue * result Task :=
  CoffeaWQTask___init__ 5 q
    (mkTask (itemid_or q "p" id) processing (len_item item) 0 (Proc item)
            0%Q WQ_UNKNOWN 0 0%Q 0%Q 0%Q).

(** what the parameter [tasks_to_accumulate] of [AccumCoffeaWQTask]
    receives: a list of tasks, or the path of a file *)
Inductive TasksArg : Type :=
| TaskList (tasks : list Task)
| PathString (path : string).

(** [AccumCoffeaWQTask.__init__]. Over a string the loops go through its
    characters: [len(t)] is 1 for each, and [t.outfile_output] raises for
    the first one. The call of the base class,
    [super().__init__(queue, infile_function, args, itemid, tmpdir)],
    passes five arguments. *)
Definition AccumCoffeaWQTask (q : Queue) (tasks_to_accumulate : TasksArg)
    (chunks_accum_in_mem : PyVal) (id : option ItemId)
  : Queue * result Task :=
  let itemid := itemid_or q "accum" id in
  match tasks_to_accumulate with
  | TaskList tasks =>
    CoffeaWQTask___init__ 5 q
      (mkTask itemid accumulating (foldr Z.add 0 (map len tasks)) 0
              (Accum tasks chunks_accum_in_mem)
              (foldr Qplus 0%Q (map fout_size tasks))
              WQ_UNKNOWN 0 0%Q 0%Q 0%Q)
  | PathString EmptyString =>
    CoffeaWQTask___init__ 5 q
      (mkTask itemid accumulating 0 0 (Accum [] chunks_accum_in_mem) 0%Q
              WQ_UNKNOWN 0 0%Q 0%Q 0%Q)
  | PathString (String _ _) =>
    (q, Raise (AttributeError "outfile_output"))
  end.

(** [clone]: each class calls its constructor with the item id of the
    task; the accumulation task hands it over in the slot of
    [chunks_accum_in_mem] and leaves [itemid] to its default. *)
Definition clone (t : Task) (q : Queue) : Queue * result Task :=
  match work t with
  | PreProc item => PreProcCoffeaWQTask q item (Some (itemid t))
  | Proc item => ProcCoffeaWQTask q item (Some (itemid t))
  | Accum tasks _ =>
    AccumCoffeaWQTask q (TaskList tasks) (PyItemId (itemid t)) None
  end.

(** [WorkItem(item.dataset, item.filename, item.treename, start, stop,
    item.fileuuid, item.usermeta)] *)
Definition sub_item (item : WorkItem) (start stop : Z) : WorkItem :=
  mkWorkItem (dataset item) (filename item) (treename item) start stop
             (fileuuid item) (usermeta item).

(** The [while start < self.item.entrystop] loop of [split], which ends
    with the first constructor that raises; [Ok None] when [fuel]
    iterations did not reach the end of the range. *)
Fixpoint split_loop (fuel : nat) (q : Queue) (item : WorkItem)
    (actual_chunksize start : Z) (splits : list Task)
  : Queue * result (option (list Task)) :=
  if start <? entrystop item then
    match fuel with
    | O => (q, Ok None)
    | S fuel' =>
      let stop := Z.min (entrystop item) (start + actual_chunksize) in
      let w := sub_item item start stop in
      match ProcCoffeaWQTask q w None with
      | (q', Ok t) =>
        split_loop fuel' q' item actual_chunksize stop (splits ++ [t])
      | (q', Raise e) => (q', Raise e)
      end
    end
  else (q, Ok (Some splits)).

(** the chunk size [split] aims at *)
Definition split_target (total current : Z) : Z :=
  if total <=? current then ceil_div total 2 else current.

(** [split]: only processing tasks override it. The statistics are updated
    before the loop. The loop gets [len(item)] iterations of fuel. *)
Definition split (t : Task) (q : Queue)
  : Queue * result (option (list Task)) :=
  match work t with
  | Proc item =>
    let total := len_item item in
    if total <? 2
    then (q, Raise (RuntimeError
                      "processing task cannot be split any further."))
    else
      let target_chunksize := split_target total (current_chunksize q) in
      if target_chunksize =? 0 then (q, Raise ZeroDivisionError)
      else
        let n := Z.max (ceil_div total target_chunksize) 1 in
        let actual_chunksize := ceil_div total n in
        let q1 :=
          set_stats q
            (stats_min "min_chunksize_after_split" actual_chunksize
               (stats_inc "chunks_split" 1 (stats_coffea q))) in
        split_loop (Z.to_nat total) q1 item actual_chunksize
                   (entrystart item) []
  | _ => (q, Raise (RuntimeError "task cannot be split any further."))
  end.

(** [resubmit(self, queue, tmpdir)] *)
Definition resubmit (t : Task) (q : Queue) : Queue * result (option unit) :=
  if (retries_to_go t <? 1) || negb (split_on_exhaustion (executor q))
  then (q, Raise (RuntimeError
                    "item failed permanently. No more retries left."))
  else
    match wq_result t with
    | WQ_RESOURCE_EXHAUSTION =>
      match split t q with
      | (q', Ok (Some resubmissions)) =>
        (foldl submit q' resubmissions, Ok (Some tt))
      | (q', Ok None) => (q', Ok None)
      | (q', Raise e) => (q', Raise e)
      end
    | _ =>
      match clone t q with
      | (q', Ok c) =>
        (submit q' (set_retries_to_go c (retries_to_go t - 1)), Ok (Some tt))
      | (q', Raise e) => (q', Raise e)
      end
    end.

End Tasks.

(** ** The other methods of [Stats] *)

Module Statistics.

(** [Stats.set] *)
Definition stats_set (stat : string) (value : Z) (s : gmap string Z)
  : gmap string Z :=
  <[stat := value]> s.

(** [Stats.get(stat, default)]: [self.setdefault(stat, 0)], the value
    returned and the dictionary afterwards *)
Definition stats_get (stat : string) (default : option Z)
    (s : gmap string Z) : Z * gmap string Z :=
  match s !! stat with
  | Some v => (v, s)
  | None => (0, <[stat := 0]> s)
  end.

(** [Stats.max] *)
Definition stats_max (stat : string) (value : Z) (s : gmap string Z)
  : gmap string Z :=
  match s !! stat with
  | Some v => <[stat := Z.max v value]> s
  | None => <[stat := value]> s
  end.

End Statistics.

(** ** Accumulation *)

Module Accumulation.

Import Tasks.

(** *** accumulate_result_files

    [R] is the type of a deserialized result. [load f] stands for the block
    [with open(f, "rb") as rf: result_f = _decompress(result_f)]. The
    loader is a variable of the section, so that what is proved of the loop
    holds whatever the block does; [load_as_written] below is the block as
    it stands. [accumulate] is the one of [coffea.processor]. *)

Section AccumulateResultFiles.

Variable R : Type.
Variable load : string -> result R.
Variable truthy_result : R -> bool.
Variable accumulate : list R -> R -> R.

(** How a run ends, with the accumulator and [in_memory] when it returns,
    and a record of [len(in_memory)] taken after every [in_memory.append],
    oldest first. *)
Record Accumulated : Type := mkAccumulated {
  outcome : result (option R * list R);
  in_memory_sizes : list nat
}.

(** The [while files_to_accumulate] loop; [files] holds the files still to
    pop, the next one first. [if not accumulator] holds of [None] and of a
    result that is not truthy. *)
Fixpoint accumulate_loop (files : list string) (chunks_accum_in_mem : Z)
    (in_memory : list R) (accumulator : option R) (sizes : list nat)
  : Accumulated :=
  match files with
  | [] => mkAccumulated (Ok (accumulator, in_memory)) sizes
  | f :: files_to_accumulate =>
    let chunks_accum_in_mem :=
      Z.min chunks_accum_in_mem (Z.of_nat (length files_to_accumulate)) in
    match load f with
    | Raise e => mkAccumulated (Raise e) sizes
    | Ok result_f =>
      let replaced :=
        accumulate_loop files_to_accumulate chunks_accum_in_mem in_memory
                        (Some result_f) sizes in
      match accumulator with
      | None => replaced
      | Some acc =>
        if negb (truthy_result acc) then replaced
        else
          let in_memory := in_memory ++ [result_f] in
          let sizes := sizes ++ [length in_memory] in
          if chunks_accum_in_mem - 1 <? Z.of_nat (length in_memory)
          then accumulate_loop files_to_accumulate chunks_accum_in_mem []
                               (Some (accumulate in_memory acc)) sizes
          else accumulate_loop files_to_accumulate chunks_accum_in_mem
                               in_memory accumulator sizes
      end
    end
  end.

(** [files_to_accumulate.pop()] takes the files from the end of the list *)
Definition accumulate_run (chunks_accum_in_mem : Z)
    (files_to_accumulate : list string) (accumulator : option R)
  : Accumulated :=
  accumulate_loop (rev files_to_accumulate) chunks_accum_in_mem []
                  accumulator [].

Definition accumulate_result_files (chunks_accum_in_mem : Z)
    (files_to_accumulate : list string) (accumulator : option R)
  : result (option R) :=
  a ← outcome (accumulate_run chunks_accum_in_mem files_to_accumulate
                              accumulator);
  Ok (fst a).

End AccumulateResultFiles.

(** The block as it is written: [open(f, "rb")] opens the file or raises
    what the operating system reports, then the right-hand side of
    [result_f = _decompress(result_f)] reads [result_f], which no
    statement has bound yet. *)
Definition load_as_written {R : Type} (open_file : string -> result unit)
    (f : string) : result R :=
  _ ← open_file f;
  Raise (UnboundLocalError "result_f").

(** *** _group_lst and _submit_accum_tasks *)

(** [range(0, stop, step)] for [step >= 1] *)
Definition py_range (stop step : nat) : list nat :=
  map (fun k => (k * step)%nat) (seq 0 ((stop + step - 1) / step)).

(** [(lst[i : i + n] for i in range(0, len(lst), n))] *)
Definition _group_lst {A : Type} (lst : list A) (n : nat) : list (list A) :=
  map (fun i => take n (drop i lst)) (py_range (length lst) n).

(** The [for next_to_accum in ...] loop. The call
    [AccumCoffeaWQTask(executor, fn_wrapper, infile_function,
    next_to_accum, tmpdir)] fills the parameters [queue, infile_function,
    tasks_to_accumulate, tmpdir, chunks_accum_in_mem] in this order: the
    path [infile_function] is what the constructor gets as
    [tasks_to_accumulate], and the directory as [chunks_accum_in_mem]. *)
Fixpoint submit_groups (infile_function tmpdir : string) (q : Queue)
    (groups : list (list Task)) (force_last_accum : bool)
  : Queue * result (list Task) :=
  match groups with
  | [] => (q, Ok [])
  | next_to_accum :: rest =>
    if Z.of_nat (length next_to_accum) <? 2 then (q, Ok next_to_accum)
    else if (Z.of_nat (length next_to_accum) <? chunks_per_accum (executor q))
            && negb force_last_accum
    then (q, Ok next_to_accum)
    else
      match AccumCoffeaWQTask q (PathString infile_function) (PyStr tmpdir)
                              None with
      | (q1, Ok accum_task) =>
        submit_groups infile_function tmpdir (submit q1 accum_task) rest
                      force_last_accum
      | (q1, Raise e) => (q1, Raise e)
      end
  end.

(** [_submit_accum_tasks(executor, fn_wrapper, infile_function,
    tasks_to_accumulate, force_last_accum, tmpdir)], with the value returned
    or the exception raised. [tasks_to_accumulate.sort] sorts the list of
    the caller in place; the groups are slices of it, that is new lists. *)
Definition _submit_accum_tasks (infile_function tmpdir : string)
    (q : Queue) (tasks_to_accumulate : list Task) (force_last_accum : bool)
  : Queue * result (list Task) :=
  let chunks_per_accum := chunks_per_accum (executor q) in
  let chunks_accum_in_mem := chunks_accum_in_mem (executor q) in
  if (chunks_per_accum <? 2) || (chunks_accum_in_mem <? 2)
  then (q, Raise (RuntimeError
                    "A minimum of two chunks should be used when accumulating"))
  else if (Z.of_nat (length tasks_to_accumulate) <? 2 * chunks_per_accum - 1)
          && negb force_last_accum
  then (q, Ok tasks_to_accumulate)
  else
    let sorted := sort_by fout_size tasks_to_accumulate in
    submit_groups infile_function tmpdir q
                  (_group_lst sorted (Z.to_nat chunks_per_accum))
                  force_last_accum.

(** [chunked n l groups]: the groups are the successive slices of [n]
    elements of [l] *)
Inductive chunked {A : Type} (n : nat) : list A -> list (list A) -> Prop :=
| chunked_nil : chunked n [] []
| chunked_cons (l : list A) (rest : list (list A)) :
    l <> [] -> chunked n (drop n l) rest ->
    chunked n l (take n l :: rest).

End Accumulation.

(** ** _declare_resources

    The calls the function makes on the queue, in order. The options of the
    executor it reads are numbers or [None], and strings. *)

Module Resources.

Record ResourceOptions : Type := mkResourceOptions {
  cores : option Z;
  memory : option Z;
  disk : option Z;
  gpus : option Z;
  resource_monitor : option string;
  resources_mode : string;
  fast_terminate_workers : option Z
}.

Inductive AllocationMode : Type :=
| WORK_QUEUE_ALLOCATION_MODE_MAX
| WORK_QUEUE_ALLOCATION_MODE_MAX_THROUGHPUT.

Inductive BackendCall : Type :=
| tune (name : string) (value : Z)
| enable_monitoring (watchdog : bool)
| specify_category_max_resources (category : string)
    (resources : gmap string Z)
| specify_category_mode (category : string) (mode : AllocationMode)
| activate_fast_abort_category (category : string) (multiplier : Z).

(** [if executor.cores:] for a number or [None] *)
Definition given (o : option Z) : bool :=
  match o with
  | Some v => negb (v =? 0)
  | None => false
  end.

(** [if executor.resource_monitor:] for a string or [None] *)
Definition given_string (o : option string) : bool :=
  match o with
  | Some s => negb (String.eqb s "")
  | None => false
  end.

Definition is_string (o : option string) (s : string) : bool :=
  match o with
  | Some s' => String.eqb s' s
  | None => false
  end.

Definition set_if_given (key : string) (o : option Z) (d : gmap string Z)
  : gmap string Z :=
  match o with
  | Some v => if given o then <[key := v]> d else d
  | None => d
  end.

Definition default_resources (ex : ResourceOptions) : gmap string Z :=
  set_if_given "gpus" (gpus ex)
    (set_if_given "disk" (disk ex)
       (set_if_given "memory" (memory ex)
          (set_if_given "cores" (cores ex) ∅))).

Definition monitor_enabled (ex : ResourceOptions) : bool :=
  let monitor_enabled :=
    if negb (given_string (resource_monitor ex))
       || is_string (resource_monitor ex) "off"
    then false else true in
  if negb (String.eqb (resources_mode ex) "fixed") then true
  else monitor_enabled.

Definition watchdog_enabled (ex : ResourceOptions) : bool :=
  if negb (given_string (resource_monitor ex))
     || is_string (resource_monitor ex) "off"
  then true
  else if is_string (resource_monitor ex) "measure" then false else true.

(** the body of the loop over the categories *)
Definition category_calls (ex : ResourceOptions) (category : string)
  : list BackendCall :=
  [specify_category_max_resources category (default_resources ex)]
  ++ (if negb (String.eqb (resources_mode ex) "fixed")
      then
        [specify_category_mode category WORK_QUEUE_ALLOCATION_MODE_MAX]
        ++ (if String.eqb category "processing"
               && String.eqb (resources_mode ex) "max-throughput"
            then [specify_category_mode category
                    WORK_QUEUE_ALLOCATION_MODE_MAX_THROUGHPUT]
            else [])
      else [])
  ++ (if given (fast_terminate_workers ex)
         && (1 <? default 0 (fast_terminate_workers ex))
      then [activate_fast_abort_category category
              (default 0 (fast_terminate_workers ex))]
      else []).

Definition categories : list string :=
  ["default"; "preprocessing"; "processing"; "accumulating"].

Definition _declare_resources (ex : ResourceOptions) : list BackendCall :=
  [tune "category-steady-n-tasks" 3; tune "force-proportional-resources" 1]
  ++ (if monitor_enabled ex then [enable_monitoring (watchdog_enabled ex)]
      else [])
  ++ concat (map (category_calls ex) categories).

(** the allocation mode a category is left in: the one of the last call
    that specifies it *)
Definition mode_of (calls : list BackendCall) (category : string)
  : option AllocationMode :=
  foldl (fun m call =>
           match call with
           | specify_category_mode c mode =>
             if String.eqb c category then Some mode else m
           | _ => m
           end) None calls.

End Resources.

(** ** work_queue_main *)

Module Main.

Import Tasks Resources.

(** [_check_dynamic_chunksize_targets]; the message is the format string *)
Definition _check_dynamic_chunksize_targets
    (targets : option (gmap string Q)) : result unit :=
  match targets with
  | Some t =>
    if forallb (fun k => String.eqb k "wall_time" || String.eqb k "memory")
               (map fst (map_to_list t))
    then Ok tt
    else Raise (KeyError "dynamic chunksize resource {} is unknown.")
  | None => Ok tt
  end.

(** the further options of the executor that [work_queue_main] reads *)
Record MainOptions : Type := mkMainOptions {
  environment_file : option string;
  compression : option Z;
  desc : string
}.

(** [work_queue_main], with the calls [_declare_resources] has made on the
    queue when it raises. After the check of the targets:
    [executor.environment_file.wrapper] reads an attribute of a string;
    [self.compression = 1] names [self] in a function; both branches on
    [executor.desc] pass [fn_wrapper], a name bound nowhere in the function
    or the module, so that neither [_work_queue_preprocessing] nor
    [_work_queue_processing] is entered. The creation of the queue, of the
    directory and of the function files, and [custom_init], are taken to
    return. *)
Definition work_queue_main {R : Type} (ex : Executor) (options : MainOptions)
    (resources : ResourceOptions) : list BackendCall * result R :=
  match _check_dynamic_chunksize_targets (dynamic_chunksize ex) with
  | Raise e => ([], Raise e)
  | Ok _ =>
    if given_string (environment_file options)
    then ([], Raise (AttributeError "wrapper"))
    else
      match compression options with
      | None => ([], Raise (NameError "self"))
      | Some _ =>
        (_declare_resources resources, Raise (NameError "fn_wrapper"))
      end
  end.

End Main.

(** * Properties *)

Section EstimatorProperties.

Import Estimator.

(** ** The estimator *)

Lemma Qlt_bool_iff (x y : Q) : Qlt_bool x y = true <-> (x < y)%Q.
Proof.
  unfold Qlt_bool. rewrite negb_true_iff. split.
  - intros H. apply Qnot_le_lt. intros Hle.
    apply Qle_bool_iff in Hle. congruence.
  - intros H. destruct (Qle_bool y x) eqn:E; [|reflexivity].
    apply Qle_bool_iff in E. exfalso. exact (Qlt_not_le _ _ H E).
Qed.

Lemma Qlt_bool_false (x y : Q) : Qlt_bool x y = false <-> (y <= x)%Q.
Proof.
  unfold Qlt_bool. rewrite negb_false_iff. apply Qle_bool_iff.
Qed.

Lemma floor_to_pow2_small floor_log2 (v : Q) :
  (v < 1)%Q -> _floor_to_pow2 floor_log2 v = 1.
Proof.
  intros H. unfold _floor_to_pow2.
  apply Qlt_bool_iff in H. now rewrite H.
Qed.

Lemma floor_to_pow2_large floor_log2 (v : Q) :
  (1 <= v)%Q -> _floor_to_pow2 floor_log2 v = 2 ^ floor_log2 v.
Proof.
  intros H. unfold _floor_to_pow2.
  apply Qlt_bool_false in H. now rewrite H.
Qed.

Lemma floor_to_pow2_is_pow2 floor_log2 (v : Q) :
  (forall x : Q, (1 <= x)%Q -> 0 <= floor_log2 x) ->
  exists k, 0 <= k /\ _floor_to_pow2 floor_log2 v = 2 ^ k.
Proof.
  intros Hlog. unfold _floor_to_pow2. destruct (Qlt_bool v 1) eqn:E.
  - exists 0. split; [lia | reflexivity].
  - exists (floor_log2 v). split; [|reflexivity].
    apply Hlog. now apply Qlt_bool_false.
Qed.

Lemma floor_to_pow2_pos floor_log2 (v : Q) :
  (forall x : Q, (1 <= x)%Q -> 0 <= floor_log2 x) ->
  1 <= _floor_to_pow2 floor_log2 v.
Proof.
  intros Hlog.
  destruct (floor_to_pow2_is_pow2 floor_log2 v Hlog) as (k & Hk & ->).
  pose proof (Z.pow_pos_nonneg 2 k ltac:(lia) Hk). lia.
Qed.

Lemma pow2_ge_1 (k : Z) : 0 <= k -> (1 <= inject_Z (2 ^ k))%Q.
Proof.
  intros Hk. change 1%Q with (inject_Z 1). rewrite <- Zle_Qle.
  pose proof (Z.pow_pos_nonneg 2 k ltac:(lia) Hk). lia.
Qed.

Lemma floor_to_pow2_of_pow2 floor_log2 (k : Z) :
  LogFacts floor_log2 -> 0 <= k ->
  _floor_to_pow2 floor_log2 (inject_Z (2 ^ k)) = 2 ^ k.
Proof.
  intros Hlog Hk.
  rewrite floor_to_pow2_large by now apply pow2_ge_1.
  now rewrite (floor_log2_pow2 _ Hlog).
Qed.

Lemma floor_log2_exact_facts : LogFacts floor_log2_exact.
Proof.
  unfold floor_log2_exact. split.
  - intros v _. apply Z.log2_nonneg.
  - intros v w _ Hle. apply Z.log2_le_mono. now apply Qfloor_resp_le.
  - intros k Hk. rewrite Qfloor_Z. now apply Z.log2_pow2.
Qed.

Lemma dimension_estimates_none
    float_div float_mul float_add quantile linregress targets reports :
  targets = None \/ (length reports < 2)%nat ->
  dimension_estimates float_div float_mul float_add quantile linregress
    targets reports = Ok (None, None).
Proof.
  intros H. unfold dimension_estimates.
  destruct targets as [targets|]; [|reflexivity].
  destruct H as [H | H]; [discriminate|].
  destruct (1 <? Z.of_nat (length reports)) eqn:E; [|reflexivity].
  apply Z.ltb_lt in E. lia.
Qed.

(** C1, as amended: without targets ([None]) or with fewer than two
    samples, whatever the samples are, [_compute_chunksize] returns the
    base size put through [_floor_to_pow2]. With a logarithm that is not
    negative from 1 on and exact at the powers of two, this is a power of
    two, and it is the base size exactly when the base size is a power of
    two. *)
Theorem compute_chunksize_without_estimate
    floor_log2 float_div float_mul float_add quantile linregress
    (base : Z) targets (reports : list report) :
  targets = None \/ (length reports < 2)%nat ->
  _compute_chunksize floor_log2 float_div float_mul float_add quantile
    linregress base targets reports
    = Ok (_floor_to_pow2 floor_log2 (inject_Z base)) /\
  (LogFacts floor_log2 ->
   (exists k, 0 <= k /\
      _floor_to_pow2 floor_log2 (inject_Z base) = 2 ^ k) /\
   (_compute_chunksize floor_log2 float_div float_mul float_add quantile
      linregress base targets reports = Ok base
    <-> exists k, 0 <= k /\ base = 2 ^ k)).
Proof.
  intros H.
  assert (E : _compute_chunksize floor_log2 float_div float_mul float_add
                quantile linregress base targets reports
              = Ok (_floor_to_pow2 floor_log2 (inject_Z base))).
  { unfold _compute_chunksize.
    now rewrite (dimension_estimates_none _ _ _ _ _ _ _ H). }
  split; [exact E|]. intros Hlog.
  pose proof (floor_to_pow2_is_pow2 floor_log2 (inject_Z base)
                (floor_log2_nonneg _ Hlog)) as Hpow.
  split; [exact Hpow|]. rewrite E. split.
  - intros [= Hb]. now rewrite <- Hb.
  - intros (k & Hk & ->). now rewrite floor_to_pow2_of_pow2.
Qed.

Lemma compute_chunksize_without_estimate_witness :
  _compute_chunksize floor_log2_exact Qdiv Qmult Qplus quantile_nearest
    linregress_exact 64 None [(100, (30 # 1)%Q, (500 # 1)%Q)] = Ok 64 /\
  exists k, 0 <= k /\ 64 = 2 ^ k.
Proof.
  destruct (compute_chunksize_without_estimate
              floor_log2_exact Qdiv Qmult Qplus quantile_nearest
              linregress_exact 64 None
              [(100, (30 # 1)%Q, (500 # 1)%Q)]) as [E H].
  - left. reflexivity.
  - destruct (H floor_log2_exact_facts) as [_ Hiff].
    split; [exact E | apply Hiff; exact E].
Defined.

(** C1, as stated, fails: a base size of 100 with no targets and no samples
    comes back as 64. *)
Lemma compute_chunksize_changes_base :
  _compute_chunksize floor_log2_exact Qdiv Qmult Qplus quantile_nearest
    linregress_exact 100 None [] = Ok 64 /\
  _compute_chunksize floor_log2_exact Qdiv Qmult Qplus quantile_nearest
    linregress_exact 100 None [] <> Ok 100.
Proof.
  split; [reflexivity | discriminate].
Qed.

End EstimatorProperties.

Section EstimatorRefinement.

Import Estimator.

Variable floor_log2 : Q -> Z.
Variable float_div float_mul float_add : Q -> Q -> Q.
Variable quantile : list Q -> Q -> Q.
Variable linregress : list Q -> list Q -> option (Q * Q).

(** ** The estimator and its description *)

(** the loop over [enumerate(avgs)] keeps the pairs a filter keeps *)
Lemma enumerate_loop_filter (q0 : Q) (pairs l : list (Q * Q)) :
  forall (k : nat) (kept : list (Q * Q)),
  (forall i, (i < length l)%nat ->
     nth (k + i) pairs (0%Q, 0%Q) = nth i l (0%Q, 0%Q)) ->
  foldl (fun kept '(i, avg) =>
           if Qle_bool q0 avg then kept ++ [nth i pairs (0%Q, 0%Q)]
           else kept)
        kept (zip (seq k (length (avgs_of float_div l)))
                  (avgs_of float_div l))
  = kept ++ filter (fun p => Is_true (Qle_bool q0 (avg_of float_div p))) l.
Proof.
  induction l as [|p l IH]; intros k kept Hnth.
  - cbn. now rewrite app_nil_r.
  - cbn [avgs_of map length seq zip zip_with foldl].
    fold (avgs_of float_div l).
    rewrite filter_cons.
    pose proof (Hnth 0%nat ltac:(cbn; lia)) as H0.
    rewrite Nat.add_0_r in H0. cbn in H0.
    rewrite IH.
    + destruct (Qle_bool q0 (avg_of float_div p)) eqn:E.
      * rewrite decide_True by exact I.
        rewrite H0, <- app_assoc. reflexivity.
      * rewrite decide_False by (intros []). reflexivity.
    + intros i Hi. specialize (Hnth (S i) ltac:(cbn; lia)).
      rewrite Nat.add_succ_r in Hnth. exact Hnth.
Qed.

Lemma pairs_filtered_filter (pairs : list (Q * Q)) :
  pairs_filtered float_div quantile pairs
  = filter (fun p => Is_true (Qle_bool (quantile (avgs_of float_div pairs)
                                                 (1 # 4))
                                       (avg_of float_div p))) pairs.
Proof.
  unfold pairs_filtered. cbv zeta.
  now rewrite (enumerate_loop_filter _ pairs pairs 0 []).
Qed.

Lemma avgs_of_ratio (samples : list EstimatorSpec.Sample) :
  avgs_of float_div (EstimatorSpec.pairs_of samples)
  = map (EstimatorSpec.ratio float_div) samples.
Proof.
  unfold avgs_of, EstimatorSpec.pairs_of. rewrite map_map. reflexivity.
Qed.

Lemma filter_pairs_of (q0 : Q) (samples : list EstimatorSpec.Sample) :
  filter (fun p => Is_true (Qle_bool q0 (avg_of float_div p)))
         (EstimatorSpec.pairs_of samples)
  = EstimatorSpec.pairs_of (filter (fun s => Is_true (Qle_bool q0
                                (EstimatorSpec.ratio float_div s))) samples).
Proof.
  induction samples as [|s l IH]; [reflexivity|].
  cbn [EstimatorSpec.pairs_of map]. fold (EstimatorSpec.pairs_of l).
  rewrite !filter_cons, IH.
  change (avg_of float_div (EstimatorSpec.resource s,
                            inject_Z (EstimatorSpec.events s)))
    with (EstimatorSpec.ratio float_div s).
  destruct (decide _); reflexivity.
Qed.

Lemma pairs_filtered_kept (samples : list EstimatorSpec.Sample) :
  pairs_filtered float_div quantile (EstimatorSpec.pairs_of samples)
  = EstimatorSpec.pairs_of
      (EstimatorSpec.kept_samples float_div quantile samples).
Proof.
  rewrite pairs_filtered_filter, filter_pairs_of, avgs_of_ratio.
  reflexivity.
Qed.

Lemma accepted_fit_projection (target : Q)
    (samples : list EstimatorSpec.Sample) :
  (let fit := accepted_fit float_div quantile linregress
                (EstimatorSpec.pairs_of samples) in
   float_add (float_mul (fst fit) target) (snd fit))
  = EstimatorSpec.projection float_div float_mul float_add quantile
      linregress target samples.
Proof.
  unfold accepted_fit, EstimatorSpec.projection. cbv zeta.
  rewrite pairs_filtered_kept, avgs_of_ratio.
  unfold EstimatorSpec.pairs_of. rewrite !map_map. cbn [fst snd].
  destruct (linregress _ _) as [[slope intercept]|]; [|reflexivity].
  unfold Qlt_bool.
  destruct (Qle_bool 0 slope), (Qle_bool intercept 0); reflexivity.
Qed.

Lemma estimate_for_dimension (target : option Q)
    (samples : list EstimatorSpec.Sample) :
  estimate_for float_div float_mul float_add quantile linregress target
    (EstimatorSpec.pairs_of samples)
  = EstimatorSpec.dimension_estimate float_div float_mul float_add quantile
      linregress target samples.
Proof.
  destruct target as [t|]; [|reflexivity].
  unfold estimate_for, EstimatorSpec.dimension_estimate, truthy.
  destruct samples as [|first rest].
  - cbn. now destruct (Qeq_bool t 0).
  - destruct (Qeq_bool t 0); [reflexivity|]. cbn [negb orb].
    unfold _compute_chunksize_target. cbn [EstimatorSpec.pairs_of map].
    fold (EstimatorSpec.pairs_of rest).
    destruct (Qlt_bool (EstimatorSpec.resource first) 0); [reflexivity|].
    f_equal. apply (accepted_fit_projection t (first :: rest)).
Qed.

Lemma chosen_size_chosen (base : Z) (time memory : option Q) :
  chosen_size base (candidates time memory)
  = EstimatorSpec.chosen base time memory.
Proof.
  unfold candidates, EstimatorSpec.chosen, truthy. cbn [omap].
  destruct time as [t|], memory as [m|]; cbn;
    repeat match goal with
           | |- context [Qeq_bool ?x 0] => destruct (Qeq_bool x 0); cbn
           end; reflexivity.
Qed.

(** C5, as amended: with a [memory] entry among the targets and at least
    two samples, [_compute_chunksize] returns [EstimatorSpec.estimate], the
    estimator written down from the amended claim. A dimension (wall time,
    memory) gives an estimate when its target is set and not 0 and the
    resource of the first sample is not negative; the estimate is slope *
    target + intercept of the regression of the events on the resource over
    the samples whose events / max(1, resource) is not below the 25th
    percentile of these ratios, or the median ratio * target + 0 when the
    fit is missing, has a negative slope or a positive intercept; the size
    chosen is the least of the estimates that are not 0, or the base size
    when there is none; the value returned is the size chosen put through
    [_floor_to_pow2]. This holds for every logarithm and arithmetic on
    doubles, every [quantile] and every [linregress]. *)
Theorem compute_chunksize_from_estimates
    (base : Z) (targets : gmap string Q) (target_memory : Q)
    (reports : list report) :
  targets !! "memory" = Some target_memory ->
  (2 <= length reports)%nat ->
  _compute_chunksize floor_log2 float_div float_mul float_add quantile
    linregress base (Some targets) reports
  = Ok (EstimatorSpec.estimate floor_log2 float_div float_mul float_add
          quantile linregress base (targets !! "wall_time") target_memory
          reports).
Proof.
  intros Hmem Hlen.
  unfold _compute_chunksize, dimension_estimates. rewrite Hmem.
  destruct (1 <? Z.of_nat (length reports)) eqn:E;
    [|apply Z.ltb_ge in E; lia].
  cbn [mbind result_bind fst snd]. f_equal.
  unfold EstimatorSpec.estimate. cbv zeta. f_equal.
  rewrite chosen_size_chosen.
  rewrite <- !estimate_for_dimension.
  unfold EstimatorSpec.pairs_of, time_pairs, memory_pairs. rewrite !map_map.
  f_equal; f_equal; apply map_ext; intros [[evs time] mem]; reflexivity.
Qed.

End EstimatorRefinement.

Lemma compute_chunksize_from_estimates_witness :
  Estimator._compute_chunksize Estimator.floor_log2_exact Qdiv Qmult Qplus
    Estimator.quantile_nearest Estimator.linregress_exact 1000
    (Some {[ "wall_time" := (60 # 1)%Q; "memory" := (400 # 1)%Q ]})
    [(100, (10 # 1)%Q, (100 # 1)%Q); (200, (20 # 1)%Q, (200 # 1)%Q);
     (300, (30 # 1)%Q, (300 # 1)%Q)] = Ok 256.
Proof.
  rewrite (compute_chunksize_from_estimates
             Estimator.floor_log2_exact Qdiv Qmult Qplus
             Estimator.quantile_nearest
             Estimator.linregress_exact 1000
             {[ "wall_time" := (60 # 1)%Q; "memory" := (400 # 1)%Q ]}
             (400 # 1)%Q).
  - vm_compute. reflexivity.
  - vm_compute. reflexivity.
  - simpl. lia.
Defined.

(** C5, as stated, fails. With a memory target of 1000 and two samples of
    100 events and 500 MB the only estimate is 200 and the call returns 128,
    not the least estimate. And of four samples the one with the largest
    resource per event is the one discarded before the fit. *)
Lemma compute_chunksize_not_least_estimate :
  let targets : gmap string Q := {[ "memory" := (1000 # 1)%Q ]} in
  let reports : list Estimator.report :=
    [(100, (30 # 1)%Q, (500 # 1)%Q); (100, (60 # 1)%Q, (500 # 1)%Q)] in
  let pairs : list (Q * Q) :=
    [((10 # 1)%Q, (100 # 1)%Q); ((20 # 1)%Q, (200 # 1)%Q);
     ((30 # 1)%Q, (300 # 1)%Q); ((40 # 1)%Q, (330 # 1)%Q)] in
  (Estimator.estimate_for Qdiv Qmult Qplus Estimator.quantile_nearest
     Estimator.linregress_exact (targets !! "wall_time")
     (Estimator.time_pairs reports) = None /\
   exists e,
     Estimator.estimate_for Qdiv Qmult Qplus Estimator.quantile_nearest
       Estimator.linregress_exact (targets !! "memory")
       (Estimator.memory_pairs reports) = Some e /\
     (e == 200 # 1)%Q /\
     Estimator._compute_chunksize Estimator.floor_log2_exact Qdiv Qmult
       Qplus Estimator.quantile_nearest Estimator.linregress_exact 1000
       (Some targets) reports = Ok 128) /\
  (Forall (fun p => (fst p / snd p <= (40 # 1) / (330 # 1))%Q) pairs /\
   Estimator.pairs_filtered Qdiv Estimator.quantile_nearest pairs
     = [((10 # 1)%Q, (100 # 1)%Q); ((20 # 1)%Q, (200 # 1)%Q);
        ((30 # 1)%Q, (300 # 1)%Q)]).
Proof.
  cbv zeta. split; [split|split].
  - reflexivity.
  - eexists. split; [vm_compute; reflexivity|].
    split; [reflexivity | vm_compute; reflexivity].
  - repeat constructor; vm_compute; discriminate.
  - vm_compute. reflexivity.
Qed.

Section TaskProperties.

Import Tasks.

(** ** Constructors, splitting and resubmission *)

Lemma clone_raises (t : Task) (q : Queue) :
  clone t q = (q, Raise (TypeError "CoffeaWQTask.__init__")).
Proof.
  unfold clone. destruct (work t); reflexivity.
Qed.

Lemma split_loop_raises (fuel : nat) (q : Queue) (item : WorkItem)
    (actual_chunksize start : Z) (splits : list Task) :
  start < entrystop item ->
  split_loop (S fuel) q item actual_chunksize start splits
    = (q, Raise (TypeError "CoffeaWQTask.__init__")).
Proof.
  intros Hstart. cbn [split_loop].
  apply Z.ltb_lt in Hstart. now rewrite Hstart.
Qed.

Lemma split_proc (t : Task) (q : Queue) (item : WorkItem) :
  work t = Proc item ->
  2 <= len_item item ->
  split_target (len_item item) (current_chunksize q) <> 0 ->
  let target_chunksize :=
    split_target (len_item item) (current_chunksize q) in
  let n := Z.max (ceil_div (len_item item) target_chunksize) 1 in
  let actual_chunksize := ceil_div (len_item item) n in
  split t q
    = (set_stats q
         (stats_min "min_chunksize_after_split" actual_chunksize
            (stats_inc "chunks_split" 1 (stats_coffea q))),
       Raise (TypeError "CoffeaWQTask.__init__")).
Proof.
  intros Hwork Htotal Htarget. cbv zeta. unfold split. rewrite Hwork.
  destruct (len_item item <? 2) eqn:E2; [apply Z.ltb_lt in E2; lia|].
  destruct (split_target _ _ =? 0) eqn:E0; [apply Z.eqb_eq in E0; lia|].
  destruct (Z.to_nat (len_item item)) as [|fuel] eqn:Ef; [lia|].
  apply split_loop_raises. unfold len_item in Htotal. lia.
Qed.

(** C2: what [split] does as it is written. For a processing task over at
    least 2 entries and a target chunk size that is not 0, [split] counts
    the split in [chunks_split] and [min_chunksize_after_split], and then
    raises [TypeError] from the constructor of the first child: no child
    exists, nothing carries a retry budget, the class counter and the tasks
    of the queue are as before. *)
Theorem split_raises_at_first_child (t : Task) (q : Queue) (item : WorkItem) :
  work t = Proc item ->
  2 <= len_item item ->
  split_target (len_item item) (current_chunksize q) <> 0 ->
  exists q',
    split t q = (q', Raise (TypeError "CoffeaWQTask.__init__")) /\
    stats_coffea q'
      = stats_min "min_chunksize_after_split"
          (ceil_div (len_item item)
             (Z.max (ceil_div (len_item item)
                       (split_target (len_item item) (current_chunksize q)))
                    1))
          (stats_inc "chunks_split" 1 (stats_coffea q)) /\
    tasks_counter q' = tasks_counter q /\
    submitted q' = submitted q /\
    executor q' = executor q /\
    current_chunksize q' = current_chunksize q.
Proof.
  intros Hwork Htotal Htarget.
  eexists. split; [exact (split_proc t q item Hwork Htotal Htarget)|].
  repeat split.
Qed.

Lemma split_raises_at_first_child_witness :
  exists q',
    split (mkTask (mkItemId "p" 3) processing 200 2
             (Proc (mkWorkItem "ds" "f.root" "Events" 1000 1200 "id" ""))
             0%Q WQ_RESOURCE_EXHAUSTION 0 0%Q 0%Q 0%Q)
          (mkQueue (mkExecutor 3 true 100 None 3 2 1000) 50 7 ∅ [])
      = (q', Raise (TypeError "CoffeaWQTask.__init__")) /\
    stats_coffea q' !! "chunks_split" = Some 1 /\
    stats_coffea q' !! "min_chunksize_after_split" = Some 50 /\
    tasks_counter q' = 7 /\
    submitted q' = [].
Proof.
  destruct (split_raises_at_first_child
              (mkTask (mkItemId "p" 3) processing 200 2
                 (Proc (mkWorkItem "ds" "f.root" "Events" 1000 1200 "id" ""))
                 0%Q WQ_RESOURCE_EXHAUSTION 0 0%Q 0%Q 0%Q)
              (mkQueue (mkExecutor 3 true 100 None 3 2 1000) 50 7 ∅ [])
              (mkWorkItem "ds" "f.root" "Events" 1000 1200 "id" ""))
    as (q' & Hsplit & Hstats & Hcounter & Hsub & _).
  - reflexivity.
  - vm_compute. discriminate.
  - vm_compute. discriminate.
  - exists q'. split; [exact Hsplit|].
    rewrite Hstats, Hcounter, Hsub.
    split; [vm_compute; reflexivity|].
    split; [vm_compute; reflexivity|]. split; reflexivity.
Defined.

Lemma resubmit_guard (t : Task) (q : Queue) :
  retries_to_go t < 1 \/ split_on_exhaustion (executor q) = false ->
  resubmit t q
    = (q, Raise (RuntimeError
                   "item failed permanently. No more retries left.")).
Proof.
  intros H. unfold resubmit. destruct H as [H | H].
  - apply Z.ltb_lt in H. now rewrite H.
  - rewrite H. now rewrite orb_true_r.
Qed.

Lemma resubmit_guard_passed (t : Task) (q : Queue) :
  1 <= retries_to_go t -> split_on_exhaustion (executor q) = true ->
  resubmit t q
    = match wq_result t with
      | WQ_RESOURCE_EXHAUSTION =>
        match split t q with
        | (q', Ok (Some resubmissions)) =>
          (foldl submit q' resubmissions, Ok (Some tt))
        | (q', Ok None) => (q', Ok None)
        | (q', Raise e) => (q', Raise e)
        end
      | _ => (q, Raise (TypeError "CoffeaWQTask.__init__"))
      end.
Proof.
  intros Hretries Hsplit. unfold resubmit. rewrite Hsplit.
  destruct (retries_to_go t <? 1) eqn:E; [apply Z.ltb_lt in E; lia|].
  cbn [orb negb]. rewrite clone_raises.
  destruct (wq_result t); reflexivity.
Qed.

(** C4, as amended: for a failure other than resource exhaustion,
    [resubmit] raises the permanent failure, with the queue as it was and
    nothing submitted, exactly when the task has no retry left or
    [split_on_exhaustion] is off in the executor; a retry left does not
    help when [split_on_exhaustion] is off. *)
Theorem failed_task_fatal_without_retry (t : Task) (q : Queue) :
  wq_result t <> WQ_RESOURCE_EXHAUSTION ->
  (retries_to_go t < 1 \/ split_on_exhaustion (executor q) = false ->
   resubmit t q
     = (q, Raise (RuntimeError
                    "item failed permanently. No more retries left."))) /\
  (snd (resubmit t q)
     = Raise (RuntimeError "item failed permanently. No more retries left.")
   -> retries_to_go t < 1 \/ split_on_exhaustion (executor q) = false).
Proof.
  intros Hres. split; [apply resubmit_guard|].
  intros Hraise.
  destruct (Z.lt_ge_cases (retries_to_go t) 1) as [Hlt | Hge]; [now left|].
  destruct (split_on_exhaustion (executor q)) eqn:Es; [|now right].
  exfalso. rewrite (resubmit_guard_passed t q Hge Es) in Hraise.
  destruct (wq_result t); try discriminate. congruence.
Qed.

Lemma failed_task_fatal_without_retry_witness :
  resubmit (mkTask (mkItemId "p" 3) processing 200 0
              (Proc (mkWorkItem "ds" "f.root" "Events" 1000 1200 "id" ""))
              0%Q (WQ_FAILURE 1) 0 0%Q 0%Q 0%Q)
           (mkQueue (mkExecutor 3 true 100 None 3 2 1000) 50 7 ∅ [])
    = (mkQueue (mkExecutor 3 true 100 None 3 2 1000) 50 7 ∅ [],
       Raise (RuntimeError "item failed permanently. No more retries left.")).
Proof.
  destruct (failed_task_fatal_without_retry
              (mkTask (mkItemId "p" 3) processing 200 0
                 (Proc (mkWorkItem "ds" "f.root" "Events" 1000 1200 "id" ""))
                 0%Q (WQ_FAILURE 1) 0 0%Q 0%Q 0%Q)
              (mkQueue (mkExecutor 3 true 100 None 3 2 1000) 50 7 ∅ []))
    as [Hfatal _].
  - discriminate.
  - apply Hfatal. left. vm_compute. reflexivity.
Defined.

(** C4, as stated, fails: with [split_on_exhaustion] off a task that has 2
    retries left and failed otherwise than by resource exhaustion is not
    retried: [resubmit] raises the permanent failure and submits nothing. *)
Lemma resubmit_refused_with_retries_left :
  let t :=
    mkTask (mkItemId "p" 3) processing 200 2
      (Proc (mkWorkItem "ds" "f.root" "Events" 1000 1200 "id" ""))
      0%Q (WQ_FAILURE 1) 0 0%Q 0%Q 0%Q in
  let q := mkQueue (mkExecutor 3 false 100 None 3 2 1000) 50 7 ∅ [] in
  1 <= retries_to_go t /\
  wq_result t <> WQ_RESOURCE_EXHAUSTION /\
  resubmit t q
    = (q, Raise (RuntimeError
                   "item failed permanently. No more retries left.")).
Proof.
  cbv zeta. split; [vm_compute; discriminate|].
  split; [discriminate | reflexivity].
Qed.

(** C9: a failed task of fewer than 2 events with no retry left makes
    [resubmit] raise the permanent failure, whatever the kind of failure,
    and leaves the queue as it was: [split], which would raise its own
    error for such a processing task, is not reached. *)
Theorem resubmit_without_retries (t : Task) (q : Queue) :
  size t < 2 ->
  retries_to_go t = 0 ->
  resubmit t q
    = (q, Raise (RuntimeError
                   "item failed permanently. No more retries left.")) /\
  (forall item, work t = Proc item -> len_item item = size t ->
     split t q
       = (q, Raise (RuntimeError
                      "processing task cannot be split any further."))).
Proof.
  intros Hsize Hretries. split.
  - unfold resubmit. rewrite Hretries. reflexivity.
  - intros item Hwork Hlen. unfold split. rewrite Hwork.
    destruct (len_item item <? 2) eqn:E; [reflexivity|].
    apply Z.ltb_ge in E. lia.
Qed.

Lemma resubmit_without_retries_witness :
  resubmit (mkTask (mkItemId "p" 3) processing 1 0
              (Proc (mkWorkItem "ds" "f.root" "Events" 7 8 "id" ""))
              0%Q WQ_RESOURCE_EXHAUSTION 0 0%Q 0%Q 0%Q)
           (mkQueue (mkExecutor 3 true 100 None 3 2 1000) 50 7 ∅ [])
    = (mkQueue (mkExecutor 3 true 100 None 3 2 1000) 50 7 ∅ [],
       Raise (RuntimeError "item failed permanently. No more retries left.")).
Proof.
  destruct (resubmit_without_retries
              (mkTask (mkItemId "p" 3) processing 1 0
                 (Proc (mkWorkItem "ds" "f.root" "Events" 7 8 "id" ""))
                 0%Q WQ_RESOURCE_EXHAUSTION 0 0%Q 0%Q 0%Q)
              (mkQueue (mkExecutor 3 true 100 None 3 2 1000) 50 7 ∅ []))
    as [Hr _].
  - reflexivity.
  - reflexivity.
  - exact Hr.
Defined.

End TaskProperties.

Section ResubmissionCoverage.

Import Tasks.

(** ** More on splitting and resubmission *)

(** X10: a task that ran out of resources and cannot be split is never
    submitted again: for a preprocessing or an accumulation task, and for a
    processing task over fewer than 2 entries, [resubmit] raises, with
    retries left as well, and leaves the queue as it was. *)
Theorem exhausted_unsplittable_task_raises (t : Task) (q : Queue) :
  wq_result t = WQ_RESOURCE_EXHAUSTION ->
  (forall item, work t = Proc item -> len_item item < 2) ->
  exists msg,
    resubmit t q = (q, Raise (RuntimeError msg)) /\
    (1 <= retries_to_go t -> split_on_exhaustion (executor q) = true ->
     msg = match work t with
           | Proc _ => "processing task cannot be split any further."
           | _ => "task cannot be split any further."
           end).
Proof.
  intros Hres Hsmall. unfold resubmit. rewrite Hres.
  destruct (retries_to_go t <? 1) eqn:Er.
  { eexists. split; [reflexivity|]. apply Z.ltb_lt in Er. lia. }
  destruct (split_on_exhaustion (executor q)) eqn:Es; simpl.
  2:{ eexists. split; [reflexivity|]. discriminate. }
  unfold split. destruct (work t) as [item|item|tasks m] eqn:Ew.
  - eexists. split; reflexivity.
  - specialize (Hsmall item eq_refl). apply Z.ltb_lt in Hsmall.
    rewrite Hsmall. eexists. split; reflexivity.
  - eexists. split; reflexivity.
Qed.

Lemma exhausted_unsplittable_task_raises_witness :
  exists msg,
    resubmit (mkTask (mkItemId "accum" 9) accumulating 300 3
                (Accum [] (PyInt 2)) 0%Q WQ_RESOURCE_EXHAUSTION 0
                0%Q 0%Q 0%Q)
             (mkQueue (mkExecutor 3 true 100 None 3 2 1000) 50 7 ∅ [])
      = (mkQueue (mkExecutor 3 true 100 None 3 2 1000) 50 7 ∅ [],
         Raise (RuntimeError msg)).
Proof.
  destruct (exhausted_unsplittable_task_raises
              (mkTask (mkItemId "accum" 9) accumulating 300 3
                 (Accum [] (PyInt 2)) 0%Q WQ_RESOURCE_EXHAUSTION 0
                 0%Q 0%Q 0%Q)
              (mkQueue (mkExecutor 3 true 100 None 3 2 1000) 50 7 ∅ []))
    as (msg & Hr & _).
  - reflexivity.
  - discriminate.
  - exists msg. exact Hr.
Defined.

Lemma split_raises (t : Task) (q : Queue) :
  exists q' e,
    split t q = (q', Raise e) /\
    submitted q' = submitted q /\
    tasks_counter q' = tasks_counter q /\
    executor q' = executor q.
Proof.
  destruct (work t) as [item|item|tasks m] eqn:Ew.
  - exists q. eexists. unfold split. rewrite Ew. repeat split.
  - destruct (Z.lt_ge_cases (len_item item) 2) as [Hlt | Hge].
    + exists q. eexists. unfold split. rewrite Ew.
      apply Z.ltb_lt in Hlt. rewrite Hlt. repeat split.
    + destruct (Z.eq_dec (split_target (len_item item)
                            (current_chunksize q)) 0) as [H0 | Hne].
      * exists q. eexists. unfold split. rewrite Ew.
        destruct (len_item item <? 2) eqn:E2;
          [apply Z.ltb_lt in E2; lia|].
        apply Z.eqb_eq in H0. rewrite H0. repeat split.
      * eexists. eexists.
        split; [exact (split_proc t q item Ew Hge Hne)|]. repeat split.
  - exists q. eexists. unfold split. rewrite Ew. repeat split.
Qed.

(** X11: as it is written, [resubmit] submits nothing: whatever the task,
    the kind of failure and the retries left, it raises, and the tasks of
    the queue, the class counter and the executor are as before. *)
Theorem resubmit_never_submits (t : Task) (q : Queue) :
  exists q' e,
    resubmit t q = (q', Raise e) /\
    submitted q' = submitted q /\
    tasks_counter q' = tasks_counter q /\
    executor q' = executor q.
Proof.
  destruct (Z.lt_ge_cases (retries_to_go t) 1) as [Hlt | Hge].
  { exists q. eexists. split; [apply resubmit_guard; now left|].
    repeat split. }
  destruct (split_on_exhaustion (executor q)) eqn:Es.
  2:{ exists q. eexists. split; [apply resubmit_guard; now right|].
      repeat split. }
  rewrite (resubmit_guard_passed t q Hge Es).
  destruct (split_raises t q) as (q' & e & Hsplit & Hrest).
  destruct (wq_result t);
    [exists q; eexists; repeat split
    |rewrite Hsplit; exists q', e; split; [reflexivity | exact Hrest]
    |exists q; eexists; repeat split..].
Qed.

(** X12: no constructor of a task returns. Each subclass calls
    [CoffeaWQTask.__init__] with five arguments for its six parameters, so
    the constructors of the three classes, and [clone] which calls them,
    raise [TypeError]; the class counter, which the body of the base
    constructor would increase, and the queue are unchanged. *)
Theorem constructors_raise (q : Queue) (item : WorkItem)
    (id : option ItemId) (tasks : list Task) (in_mem : PyVal) (t : Task) :
  PreProcCoffeaWQTask q item id
    = (q, Raise (TypeError "CoffeaWQTask.__init__")) /\
  ProcCoffeaWQTask q item id
    = (q, Raise (TypeError "CoffeaWQTask.__init__")) /\
  AccumCoffeaWQTask q (TaskList tasks) in_mem id
    = (q, Raise (TypeError "CoffeaWQTask.__init__")) /\
  clone t q = (q, Raise (TypeError "CoffeaWQTask.__init__")).
Proof.
  split; [reflexivity|]. split; [reflexivity|]. split; [reflexivity|].
  apply clone_raises.
Qed.

(** X13: for a processing task over at least 2 entries, [split] with a
    current chunk size of 0 raises [ZeroDivisionError] before it touches
    the statistics or builds a child. *)
Theorem split_with_zero_chunksize (t : Task) (q : Queue) (item : WorkItem) :
  work t = Proc item ->
  2 <= len_item item ->
  current_chunksize q = 0 ->
  split t q = (q, Raise ZeroDivisionError).
Proof.
  intros Hwork Htotal H0. unfold split. rewrite Hwork.
  destruct (len_item item <? 2) eqn:E2; [apply Z.ltb_lt in E2; lia|].
  unfold split_target. rewrite H0.
  destruct (len_item item <=? 0) eqn:E; [apply Z.leb_le in E; lia|].
  reflexivity.
Qed.

Lemma split_with_zero_chunksize_witness :
  split (mkTask (mkItemId "p" 3) processing 200 1
           (Proc (mkWorkItem "ds" "f.root" "Events" 1000 1200 "id" ""))
           0%Q WQ_RESOURCE_EXHAUSTION 0 0%Q 0%Q 0%Q)
        (mkQueue (mkExecutor 3 true 0 None 3 2 1000) 0 7 ∅ [])
    = (mkQueue (mkExecutor 3 true 0 None 3 2 1000) 0 7 ∅ [],
       Raise ZeroDivisionError).
Proof.
  apply (split_with_zero_chunksize
           (mkTask (mkItemId "p" 3) processing 200 1
              (Proc (mkWorkItem "ds" "f.root" "Events" 1000 1200 "id" ""))
              0%Q WQ_RESOURCE_EXHAUSTION 0 0%Q 0%Q 0%Q)
           (mkQueue (mkExecutor 3 true 0 None 3 2 1000) 0 7 ∅ [])
           (mkWorkItem "ds" "f.root" "Events" 1000 1200 "id" ""));
    [reflexivity | vm_compute; discriminate | reflexivity].
Defined.

End ResubmissionCoverage.

Section AccumulationProperties.

Import Tasks Accumulation.

(** ** Sorting and grouping *)

Lemma insert_by_perm {A : Type} (key : A -> Q) (x : A) (l : list A) :
  insert_by key x l ≡ₚ x :: l.
Proof.
  induction l as [|y ys IH]; simpl; [reflexivity|].
  destruct (Qle_bool (key x) (key y)); [reflexivity|].
  rewrite IH. apply Permutation_swap.
Qed.

Lemma sort_by_perm {A : Type} (key : A -> Q) (l : list A) :
  sort_by key l ≡ₚ l.
Proof.
  induction l as [|x l IH]; simpl; [reflexivity|].
  rewrite insert_by_perm. now rewrite IH.
Qed.


Lemma py_range_nil (step : nat) : (1 <= step)%nat -> py_range 0 step = [].
Proof.
  intros H. unfold py_range.
  rewrite Nat.div_small by lia. reflexivity.
Qed.

Lemma py_range_cons (stop step : nat) :
  (1 <= step)%nat -> (1 <= stop)%nat ->
  py_range stop step
    = 0%nat :: map (fun i => (step + i)%nat) (py_range (stop - step) step).
Proof.
  intros Hstep Hstop. unfold py_range.
  assert (E : ((stop + step - 1) / step
               = S ((stop - step + step - 1) / step))%nat).
  { destruct (Nat.le_gt_cases stop step) as [Hle | Hgt].
    - replace (stop - step)%nat with 0%nat by lia.
      rewrite (Nat.div_small (0 + step - 1) step) by lia.
      symmetry. apply (Nat.div_unique _ _ 1%nat (stop - 1)%nat); lia.
    - replace (stop + step - 1)%nat
        with ((stop - step + step - 1) + 1 * step)%nat by lia.
      rewrite Nat.div_add by lia. lia. }
  rewrite E. simpl. f_equal.
  rewrite <- seq_shift, !map_map. apply map_ext. intros k. lia.
Qed.

Lemma group_lst_chunked {A : Type} (n : nat) (l : list A) :
  (1 <= n)%nat -> chunked n l (_group_lst l n).
Proof.
  intros Hn. remember (length l) as len eqn:Hlen.
  revert l Hlen. induction len as [len IH] using lt_wf_ind. intros l Hlen.
  destruct l as [|x l'].
  - unfold _group_lst. simpl. rewrite py_range_nil by lia. constructor.
  - unfold _group_lst. rewrite py_range_cons by (simpl; lia).
    cbn [map]. rewrite drop_0.
    replace (map (fun i => take n (drop i (x :: l')))
                 (map (fun i => (n + i)%nat)
                      (py_range (length (x :: l') - n) n)))
      with (_group_lst (drop n (x :: l')) n).
    + constructor; [discriminate|].
      apply (IH (length (drop n (x :: l')))); [|reflexivity].
      rewrite length_drop. subst len. simpl. lia.
    + unfold _group_lst. rewrite length_drop, map_map.
      apply map_ext. intros i. now rewrite drop_drop.
Qed.

Lemma chunked_concat {A : Type} (n : nat) (l : list A) groups :
  chunked n l groups -> concat groups = l.
Proof.
  induction 1 as [|l rest Hne Hc IH]; simpl; [reflexivity|].
  rewrite IH. apply take_drop.
Qed.

Lemma sort_by_length {A : Type} (key : A -> Q) (l : list A) :
  length (sort_by key l) = length l.
Proof.
  apply Permutation_length, sort_by_perm.
Qed.

Lemma sort_by_short {A : Type} (key : A -> Q) (l : list A) :
  (length l < 2)%nat -> sort_by key l = l.
Proof.
  destruct l as [|x [|y l]]; simpl; [reflexivity | reflexivity | lia].
Qed.

Lemma group_lst_first {A : Type} (n : nat) (l : list A) :
  (1 <= n)%nat -> l <> [] ->
  exists rest, _group_lst l n = take n l :: rest.
Proof.
  intros Hn Hne. pose proof (group_lst_chunked n l Hn) as Hc.
  inversion Hc as [Hnil | l' rest _ _ Hl]; [congruence|]. eauto.
Qed.

(** the test of the two limits, made at each call before anything else *)
Lemma submit_accum_tasks_limits (infile_function tmpdir : string)
    (q : Queue) (tasks_to_accumulate : list Task) (force_last_accum : bool) :
  chunks_per_accum (executor q) < 2 \/ chunks_accum_in_mem (executor q) < 2 ->
  _submit_accum_tasks infile_function tmpdir q tasks_to_accumulate
    force_last_accum
    = (q, Raise (RuntimeError
                   "A minimum of two chunks should be used when accumulating")).
Proof.
  intros H. unfold _submit_accum_tasks.
  destruct H as [H | H]; apply Z.ltb_lt in H; rewrite H;
    [reflexivity | now rewrite orb_true_r].
Qed.

(** C3: what [_submit_accum_tasks] does as it is written, with both limits
    at least 2. Below the threshold of [2 * chunks_per_accum - 1] pending
    tasks and not forced, it returns the pending list as it is; forced with
    fewer than 2 pending tasks, it returns them as well. In every other
    case, that is whenever a group is to be emitted, the constructor of the
    first accumulation task raises: [AttributeError], because it goes
    through the characters of the path given as [infile_function] where it
    expects tasks ([TypeError] from the base constructor when that path is
    empty). No accumulation task is submitted, the queue is as it was, and
    no pending list is returned. *)
Theorem submit_accum_tasks_as_written (infile_function tmpdir : string)
    (q : Queue) (tasks_to_accumulate : list Task) (force_last_accum : bool) :
  2 <= chunks_per_accum (executor q) ->
  2 <= chunks_accum_in_mem (executor q) ->
  _submit_accum_tasks infile_function tmpdir q tasks_to_accumulate
    force_last_accum
  = if (Z.of_nat (length tasks_to_accumulate)
          <? 2 * chunks_per_accum (executor q) - 1)
       && negb force_last_accum
    then (q, Ok tasks_to_accumulate)
    else if Z.of_nat (length tasks_to_accumulate) <? 2
    then (q, Ok tasks_to_accumulate)
    else (q, Raise (match infile_function with
                    | EmptyString => TypeError "CoffeaWQTask.__init__"
                    | String _ _ => AttributeError "outfile_output"
                    end)).
Proof.
  intros Hper Hmem. unfold _submit_accum_tasks. cbv zeta.
  destruct (chunks_per_accum (executor q) <? 2) eqn:E1;
    [apply Z.ltb_lt in E1; lia|].
  destruct (chunks_accum_in_mem (executor q) <? 2) eqn:E2;
    [apply Z.ltb_lt in E2; lia|].
  cbn [orb].
  destruct ((Z.of_nat (length tasks_to_accumulate)
               <? 2 * chunks_per_accum (executor q) - 1)
            && negb force_last_accum) eqn:Edefer; [reflexivity|].
  set (n := Z.to_nat (chunks_per_accum (executor q))).
  assert (Hn : (2 <= n)%nat) by lia.
  destruct (Z.of_nat (length tasks_to_accumulate) <? 2) eqn:Eshort.
  - apply Z.ltb_lt in Eshort.
    rewrite sort_by_short by lia.
    destruct tasks_to_accumulate as [|t [|t' l]]; [| |simpl in Eshort; lia].
    + unfold _group_lst. simpl. rewrite py_range_nil by lia. reflexivity.
    + destruct (group_lst_first n [t] ltac:(lia) ltac:(discriminate))
        as (rest & ->).
      rewrite firstn_all2 by (simpl; lia). reflexivity.
  - apply Z.ltb_ge in Eshort.
    set (sorted := sort_by fout_size tasks_to_accumulate).
    assert (Hlen : length sorted = length tasks_to_accumulate)
      by apply sort_by_length.
    destruct (group_lst_first n sorted ltac:(lia)) as (rest & ->).
    { intros Hnil. rewrite Hnil in Hlen. simpl in Hlen. lia. }
    cbn [submit_groups]. rewrite length_take, Hlen.
    destruct (Z.of_nat (n `min` length tasks_to_accumulate) <? 2) eqn:Eg;
      [apply Z.ltb_lt in Eg; lia|].
    destruct ((Z.of_nat (n `min` length tasks_to_accumulate)
                 <? chunks_per_accum (executor q))
              && negb force_last_accum) eqn:Ep.
    + exfalso. apply andb_true_iff in Ep as [Ep Hf].
      rewrite Hf, andb_true_r in Edefer.
      apply Z.ltb_lt in Ep. apply Z.ltb_ge in Edefer. lia.
    + destruct infile_function; reflexivity.
Qed.

Lemma submit_accum_tasks_as_written_witness :
  let pending (fout : Q) (n : Z) :=
    mkTask (mkItemId "p" n) processing 100 3
      (Proc (mkWorkItem "ds" "f.root" "Events" (100 * n) (100 * n + 100)
                        "id" ""))
      0%Q WQ_SUCCESS 0 fout 0%Q 0%Q in
  let q := mkQueue (mkExecutor 3 true 100 None 2 2 1000) 100 7 ∅ [] in
  _submit_accum_tasks "accum.p" "tmp" q
    [pending (3 # 1)%Q 1; pending (1 # 1)%Q 2; pending (2 # 1)%Q 3] false
    = (q, Raise (AttributeError "outfile_output")).
Proof.
  cbv zeta.
  rewrite submit_accum_tasks_as_written.
  - reflexivity.
  - vm_compute. discriminate.
  - vm_compute. discriminate.
Defined.

End AccumulationProperties.

Section GroupingCoverage.

Import Tasks Accumulation.

(** ** More on grouping *)

Lemma group_lst_lookup {A : Type} (lst : list A) (n i : nat) :
  (1 <= n)%nat ->
  _group_lst lst n !! i
    = if decide (i * n < length lst)%nat
      then Some (take n (drop (i * n) lst))
      else None.
Proof.
  intros Hn. unfold _group_lst, py_range.
  rewrite !list_lookup_fmap.
  destruct (decide (i * n < length lst)%nat) as [Hlt|Hge].
  - assert (Hi : (i < (length lst + n - 1) / n)%nat).
    { apply Nat.div_le_lower_bound; [lia|]. nia. }
    rewrite lookup_seq_lt by exact Hi. reflexivity.
  - assert (Hi : ((length lst + n - 1) / n <= i)%nat).
    { destruct (le_lt_dec ((length lst + n - 1) / n) i) as [H|H];
        [exact H|].
      exfalso. apply Hge.
      assert (Hm : (S i * n <= length lst + n - 1)%nat).
      { transitivity (n * ((length lst + n - 1) / n))%nat.
        - nia.
        - apply Nat.Div0.mul_div_le. }
      simpl in Hm. lia. }
    rewrite lookup_seq_ge by exact Hi. reflexivity.
Qed.

Lemma group_lst_length {A : Type} (lst : list A) (n : nat) :
  length (_group_lst lst n) = ((length lst + n - 1) / n)%nat.
Proof.
  unfold _group_lst, py_range. now rewrite !length_map, length_seq.
Qed.

(** X15: for [n >= 1] the groups of [_group_lst] are the successive slices
    [lst[i * n : i * n + n]]: there are [ceil(len(lst) / n)] of them, put
    end to end they give [lst] back, none is empty, and all of them have
    [n] elements, except the last one when [n] does not divide the
    length. *)
Theorem group_lst_slices {A : Type} (lst : list A) (n : nat) :
  (1 <= n)%nat ->
  concat (_group_lst lst n) = lst /\
  length (_group_lst lst n) = ((length lst + n - 1) / n)%nat /\
  (forall (i : nat) (g : list A), _group_lst lst n !! i = Some g ->
     g = take n (drop (i * n) lst) /\
     (1 <= length g <= n)%nat /\
     (S i < length (_group_lst lst n) -> length g = n)%nat /\
     (length lst mod n = 0 -> length g = n)%nat).
Proof.
  intros Hn.
  split; [apply (chunked_concat n), group_lst_chunked, Hn|].
  split; [apply group_lst_length|].
  intros i g Hg. rewrite group_lst_lookup in Hg by exact Hn.
  destruct (decide (i * n < length lst)%nat) as [Hlt|]; [|discriminate].
  injection Hg as <-. split; [reflexivity|].
  rewrite length_take, length_drop.
  split; [lia|]. split.
  - intros Hnext.
    assert (Hs : _group_lst lst n !! S i <> None).
    { intros Hnone. apply lookup_ge_None in Hnone. lia. }
    rewrite group_lst_lookup in Hs by exact Hn.
    destruct (decide (S i * n < length lst)%nat); [|congruence].
    simpl in *. lia.
  - intros Hdiv.
    apply Nat.Div0.div_exact in Hdiv.
    assert (i < length lst / n)%nat by nia.
    nia.
Qed.

Lemma group_lst_slices_witness :
  _group_lst [1; 2; 3; 4; 5; 6; 7] 3 = [[1; 2; 3]; [4; 5; 6]; [7]] /\
  concat (_group_lst [1; 2; 3; 4; 5; 6; 7] 3) = [1; 2; 3; 4; 5; 6; 7].
Proof.
  split; [reflexivity|].
  apply (group_lst_slices [1; 2; 3; 4; 5; 6; 7] 3). lia.
Defined.

End GroupingCoverage.

Section AccumulateResultFilesProperties.

Import Accumulation.

Variable R : Type.
Variable load : string -> result R.
Variable truthy_result : R -> bool.
Variable accumulate : list R -> R -> R.

Abbreviation merge_loop := (accumulate_loop R load truthy_result accumulate).

(** ** The merge of result files *)

(** C10: with no file to accumulate the accumulator given comes back as it
    is, [None] when there was none; nothing is loaded or merged and nothing
    is raised. *)
Theorem accumulate_result_files_empty
    (chunks_accum_in_mem : Z) (accumulator : option R) :
  accumulate_result_files R load truthy_result accumulate
    chunks_accum_in_mem [] accumulator = Ok accumulator /\
  accumulate_result_files R load truthy_result accumulate
    chunks_accum_in_mem [] None = Ok None /\
  accumulate_run R load truthy_result accumulate
    chunks_accum_in_mem [] accumulator
    = mkAccumulated R (Ok (accumulator, [])) [].
Proof. repeat split. Qed.

(** the loop raises what the first file that does not load raises *)
Lemma accumulate_loop_raises (files : list string) (e : exn) :
  forall (c : Z) (in_memory : list R) (acc : option R) (sizes : list nat),
  outcome R (merge_loop files c in_memory acc sizes) = Raise e <->
  exists before f after,
    files = before ++ f :: after /\
    Forall (fun g => exists r, load g = Ok r) before /\
    load f = Raise e.
Proof.
  induction files as [|f rest IH]; intros c in_memory acc sizes; simpl.
  - split; [discriminate|].
    intros (before & f & after & Hf & _). destruct before; discriminate.
  - destruct (load f) as [result_f|e'] eqn:Hload.
    + assert (Hrest : forall c' m a s,
                outcome R (merge_loop rest c' m a s) = Raise e <->
                exists before f0 after,
                  f :: rest = before ++ f0 :: after /\
                  Forall (fun g => exists r, load g = Ok r) before /\
                  load f0 = Raise e).
      { intros c' m a s. rewrite IH. split.
        - intros (before & f0 & after & -> & Hb & Hf0).
          exists (f :: before), f0, after.
          split; [reflexivity|]. split; [|exact Hf0].
          constructor; [eauto | exact Hb].
        - intros (before & f0 & after & Heq & Hb & Hf0).
          destruct before as [|b before]; simpl in Heq.
          + injection Heq as <- _. congruence.
          + injection Heq as <- ->. inversion Hb; subst.
            exists before, f0, after. auto. }
      destruct acc as [acc|]; [|apply Hrest].
      destruct (truthy_result acc); simpl; [|apply Hrest].
      destruct (_ <? _); apply Hrest.
    + simpl. split.
      * intros [= <-]. exists [], f, rest. auto.
      * intros (before & f0 & after & Heq & Hb & Hf0).
        destruct before as [|b before]; simpl in Heq.
        -- injection Heq as <- _. congruence.
        -- injection Heq as <- _. inversion Hb as [|? ? [r Hr] _]; subst.
           congruence.
Qed.

(** X18: the files are taken from the end of the list, and the call raises
    exactly when one of them does not load: the exception is the one of
    the last file of the list that does not load; the files after it were
    loaded, the files before it are not looked at. *)
Theorem accumulate_result_files_raises
    (chunks_accum_in_mem : Z) (files_to_accumulate : list string)
    (accumulator : option R) (e : exn) :
  accumulate_result_files R load truthy_result accumulate
    chunks_accum_in_mem files_to_accumulate accumulator = Raise e
  <->
  exists before f after,
    files_to_accumulate = before ++ f :: after /\
    load f = Raise e /\
    Forall (fun g => exists r, load g = Ok r) after.
Proof.
  unfold accumulate_result_files, accumulate_run.
  assert (Hbind : forall o : result (option R * list R),
            (a ← o; Ok (fst a)) = Raise e <-> o = Raise e).
  { intros [a|e']; simpl; split; congruence. }
  rewrite Hbind, accumulate_loop_raises. split.
  - intros (before & f & after & Hrev & Hb & Hf).
    exists (rev after), f, (rev before).
    split; [|split; [exact Hf|]].
    + rewrite <- (rev_involutive files_to_accumulate), Hrev.
      rewrite rev_app_distr. simpl. now rewrite <- app_assoc.
    + apply Forall_rev. exact Hb.
  - intros (before & f & after & -> & Hf & Ha).
    exists (rev after), f, (rev before).
    split; [|split; [|exact Hf]].
    + rewrite rev_app_distr. simpl. now rewrite <- app_assoc.
    + apply Forall_rev. exact Ha.
Qed.

(** C6: what [accumulate_result_files] does as it is written. With at least
    one file, the block that loads the first file taken (the last of the
    list) raises: what the operating system reports when the file does not
    open, and otherwise [UnboundLocalError], since [result_f] is read
    before anything is assigned to it. No result is deserialized, none is
    appended to [in_memory], nothing is merged, and no further file is
    looked at, whatever the limit and the accumulator. *)
Theorem accumulate_result_files_as_written
    (open_file : string -> result unit)
    (chunks_accum_in_mem : Z) (files_to_accumulate : list string)
    (f : string) (accumulator : option R) :
  let raised :=
    match open_file f with
    | Ok _ => UnboundLocalError "result_f"
    | Raise e => e
    end in
  accumulate_run R (load_as_written open_file) truthy_result accumulate
    chunks_accum_in_mem (files_to_accumulate ++ [f]) accumulator
    = mkAccumulated R (Raise raised) [] /\
  accumulate_result_files R (load_as_written open_file) truthy_result
    accumulate chunks_accum_in_mem (files_to_accumulate ++ [f]) accumulator
    = Raise raised.
Proof.
  cbv zeta. unfold accumulate_result_files, accumulate_run.
  rewrite rev_app_distr. cbn [rev app accumulate_loop].
  unfold load_as_written.
  destruct (open_file f) as [[]|e]; split; reflexivity.
Qed.

End AccumulateResultFilesProperties.

Section MainProperties.

Import Tasks Accumulation Resources Main.

(** ** work_queue_main *)

Lemma unknown_target_refused (targets : gmap string Q) (k : string) :
  is_Some (targets !! k) -> k <> "wall_time" -> k <> "memory" ->
  _check_dynamic_chunksize_targets (Some targets)
    = Raise (KeyError "dynamic chunksize resource {} is unknown.").
Proof.
  intros [v Hv] Hw Hm. unfold _check_dynamic_chunksize_targets.
  destruct (forallb _ _) eqn:E; [|reflexivity]. exfalso.
  rewrite forallb_forall in E.
  assert (Hin : In k (map fst (map_to_list targets))).
  { apply (in_map fst _ (k, v)). apply list_elem_of_In.
    now apply elem_of_map_to_list. }
  specialize (E k Hin). apply orb_true_iff in E as [E | E];
    apply String.eqb_eq in E; congruence.
Qed.

(** C7, as amended: a target of the dynamic chunk size other than
    [wall_time] and [memory] is refused by [work_queue_main] before it does
    anything else: [KeyError] is raised with no call made on the queue,
    whatever the other options are. The two chunk limits are tested by
    [_submit_accum_tasks], at each of its calls and before it looks at the
    pending tasks: with [chunks_per_accum < 2] or [chunks_accum_in_mem < 2]
    it raises [RuntimeError], submits nothing and leaves the queue as it
    was. *)
Theorem configuration_errors_detected :
  (forall (R : Type) (ex : Executor) (options : MainOptions)
          (resources : ResourceOptions) (targets : gmap string Q)
          (k : string),
     dynamic_chunksize ex = Some targets ->
     is_Some (targets !! k) -> k <> "wall_time" -> k <> "memory" ->
     work_queue_main (R := R) ex options resources
       = ([], Raise (KeyError "dynamic chunksize resource {} is unknown.")))
  /\
  (forall (infile_function tmpdir : string) (q : Queue)
          (tasks_to_accumulate : list Task) (force_last_accum : bool),
     chunks_per_accum (executor q) < 2 \/
     chunks_accum_in_mem (executor q) < 2 ->
     _submit_accum_tasks infile_function tmpdir q tasks_to_accumulate
       force_last_accum
       = (q, Raise (RuntimeError
                      "A minimum of two chunks should be used when accumulating"))).
Proof.
  split.
  - intros R ex options resources targets k Htargets Hk Hw Hm.
    unfold work_queue_main.
    now rewrite Htargets, (unknown_target_refused targets k Hk Hw Hm).
  - apply submit_accum_tasks_limits.
Qed.

Lemma configuration_errors_detected_witness :
  work_queue_main (R := unit)
    (mkExecutor 3 true 100 (Some {[ "cores" := (4 # 1)%Q ]}) 3 2 1000)
    (mkMainOptions None (Some 1) "Processing")
    (mkResourceOptions None None None None None "fixed" None)
    = ([], Raise (KeyError "dynamic chunksize resource {} is unknown.")) /\
  _submit_accum_tasks "accum.p" "tmp"
    (mkQueue (mkExecutor 3 true 100 None 1 2 1000) 100 7 ∅ []) [] true
    = (mkQueue (mkExecutor 3 true 100 None 1 2 1000) 100 7 ∅ [],
       Raise (RuntimeError
                "A minimum of two chunks should be used when accumulating")).
Proof.
  destruct configuration_errors_detected as [Hmain Hsubmit]. split.
  - apply (Hmain unit _ _ _ {[ "cores" := (4 # 1)%Q ]} "cores").
    + reflexivity.
    + exists (4 # 1)%Q. apply lookup_singleton_eq.
    + discriminate.
    + discriminate.
  - apply Hsubmit. left. vm_compute. reflexivity.
Defined.

(** C7, as stated, fails: with both chunk limits at 1, [work_queue_main]
    declares the resources on the queue and goes on to the call of the
    processing, without raising the error of the configuration. *)
Lemma chunk_limits_not_checked_by_main :
  let ex := mkExecutor 3 true 100 None 1 1 1000 in
  let options := mkMainOptions None (Some 1) "Processing" in
  let resources := mkResourceOptions None None None None None "fixed" None in
  chunks_per_accum ex < 2 /\
  chunks_accum_in_mem ex < 2 /\
  fst (work_queue_main (R := unit) ex options resources)
    = _declare_resources resources /\
  _declare_resources resources <> [] /\
  snd (work_queue_main (R := unit) ex options resources)
    <> Raise (RuntimeError
                "A minimum of two chunks should be used when accumulating").
Proof.
  cbv zeta. split; [vm_compute; reflexivity|].
  split; [vm_compute; reflexivity|]. split; [reflexivity|].
  split; discriminate.
Qed.


End MainProperties.

Section EstimatorCoverage.

Import Estimator Main.

(** ** More on the estimator *)

(** X1: with a logarithm that is not negative from 1 on, does not decrease
    and is exact at the powers of two, [_floor_to_pow2] is monotone, it is
    idempotent (a value it returned is returned unchanged), and it never
    returns less than 1. *)
Theorem floor_to_pow2_monotone_idempotent floor_log2 (v w : Q) :
  LogFacts floor_log2 ->
  ((v <= w)%Q -> _floor_to_pow2 floor_log2 v <= _floor_to_pow2 floor_log2 w) /\
  _floor_to_pow2 floor_log2 (inject_Z (_floor_to_pow2 floor_log2 v))
    = _floor_to_pow2 floor_log2 v /\
  1 <= _floor_to_pow2 floor_log2 v.
Proof.
  intros Hlog. pose proof (floor_log2_nonneg _ Hlog) as Hnonneg.
  split; [|split; [|now apply floor_to_pow2_pos]].
  - intros Hle. destruct (Qlt_le_dec v 1) as [Hv | Hv].
    + rewrite (floor_to_pow2_small _ v Hv). now apply floor_to_pow2_pos.
    + assert (Hw : (1 <= w)%Q) by (eapply Qle_trans; eassumption).
      rewrite (floor_to_pow2_large _ v Hv), (floor_to_pow2_large _ w Hw).
      apply Z.pow_le_mono_r; [lia|].
      now apply (floor_log2_mono _ Hlog).
  - destruct (floor_to_pow2_is_pow2 floor_log2 v Hnonneg) as (k & Hk & ->).
    now apply floor_to_pow2_of_pow2.
Qed.

Lemma floor_to_pow2_monotone_idempotent_witness :
  _floor_to_pow2 floor_log2_exact (100 # 1) <=
    _floor_to_pow2 floor_log2_exact (200 # 1) /\
  _floor_to_pow2 floor_log2_exact
    (inject_Z (_floor_to_pow2 floor_log2_exact (100 # 1)))
    = _floor_to_pow2 floor_log2_exact (100 # 1) /\
  1 <= _floor_to_pow2 floor_log2_exact (100 # 1).
Proof.
  destruct (floor_to_pow2_monotone_idempotent floor_log2_exact
              (100 # 1) (200 # 1) floor_log2_exact_facts) as (Hm & Hi & Hp).
  split; [apply Hm; vm_compute; discriminate | split; [exact Hi | exact Hp]].
Defined.

(** X2: with a logarithm that is not negative from 1 on, whatever the base
    size, the targets and the samples, a size returned by
    [_compute_chunksize] is a power of two, hence at least 1. *)
Theorem compute_chunksize_power_of_two
    floor_log2 float_div float_mul float_add quantile linregress
    (base : Z) targets (reports : list report) (r : Z) :
  (forall v : Q, (1 <= v)%Q -> 0 <= floor_log2 v) ->
  _compute_chunksize floor_log2 float_div float_mul float_add quantile
    linregress base targets reports = Ok r ->
  1 <= r /\ exists k, 0 <= k /\ r = 2 ^ k.
Proof.
  intros Hlog. unfold _compute_chunksize.
  destruct (dimension_estimates _ _ _ _ _ _ _) as [est|e]; [|discriminate].
  simpl. intros [= <-]. split.
  - now apply floor_to_pow2_pos.
  - now apply floor_to_pow2_is_pow2.
Qed.

Lemma compute_chunksize_power_of_two_witness :
  1 <= 64 /\ exists k, 0 <= k /\ 64 = 2 ^ k.
Proof.
  apply (compute_chunksize_power_of_two floor_log2_exact Qdiv Qmult Qplus
           quantile_nearest linregress_exact 100 None [] 64).
  - apply (floor_log2_nonneg _ floor_log2_exact_facts).
  - reflexivity.
Defined.

Lemma check_targets_ok (targets : gmap string Q) :
  _check_dynamic_chunksize_targets (Some targets) = Ok tt <->
  forall k, is_Some (targets !! k) -> k = "wall_time" \/ k = "memory".
Proof.
  unfold _check_dynamic_chunksize_targets.
  destruct (forallb _ _) eqn:E.
  - split; [|reflexivity]. intros _ k [v Hv].
    rewrite forallb_forall in E.
    assert (Hin : In k (map fst (map_to_list targets))).
    { apply (in_map fst _ (k, v)). apply list_elem_of_In.
      now apply elem_of_map_to_list. }
    specialize (E k Hin). apply orb_true_iff in E as [E | E];
      apply String.eqb_eq in E; auto.
  - split; [discriminate|]. intros Hall. exfalso.
    apply not_true_iff_false in E. apply E. apply forallb_forall.
    intros k Hin. apply in_map_iff in Hin as ([k' v] & <- & Hin).
    apply list_elem_of_In, elem_of_map_to_list in Hin. simpl.
    destruct (Hall k' ltac:(eauto)) as [-> | ->]; reflexivity.
Qed.

(** X3: [_check_dynamic_chunksize_targets] accepts [None], and a dictionary
    exactly when each of its keys is [wall_time] or [memory]; the empty
    dictionary is accepted, the values play no part. *)
Theorem check_dynamic_chunksize_targets_accepts (targets : gmap string Q) :
  _check_dynamic_chunksize_targets None = Ok tt /\
  _check_dynamic_chunksize_targets (Some ∅) = Ok tt /\
  (_check_dynamic_chunksize_targets (Some targets) = Ok tt <->
   forall k, is_Some (targets !! k) -> k = "wall_time" \/ k = "memory") /\
  (_check_dynamic_chunksize_targets (Some targets) <> Ok tt ->
   _check_dynamic_chunksize_targets (Some targets)
     = Raise (KeyError "dynamic chunksize resource {} is unknown.")).
Proof.
  split; [reflexivity|]. split; [reflexivity|].
  split; [apply check_targets_ok|].
  unfold _check_dynamic_chunksize_targets.
  destruct (forallb _ _); [congruence | reflexivity].
Qed.

(** X4: targets that name [wall_time] only pass the check made before the
    loop, and yet [_compute_chunksize] raises [KeyError] for them as soon as
    there are two samples: the [memory] entry is read without a default. *)
Theorem wall_time_only_targets_raise
    floor_log2 float_div float_mul float_add quantile linregress
    (base : Z) (target_time : Q) (reports : list report) :
  (2 <= length reports)%nat ->
  _check_dynamic_chunksize_targets (Some {[ "wall_time" := target_time ]})
    = Ok tt /\
  _compute_chunksize floor_log2 float_div float_mul float_add quantile
    linregress base (Some {[ "wall_time" := target_time ]}) reports
    = Raise (KeyError "memory").
Proof.
  intros Hlen. split.
  - apply check_targets_ok. intros k [v Hv].
    apply lookup_singleton_Some in Hv as [<- _]. now left.
  - unfold _compute_chunksize, dimension_estimates.
    destruct (1 <? Z.of_nat (length reports)) eqn:E;
      [|apply Z.ltb_ge in E; lia].
    rewrite lookup_singleton_ne by discriminate. reflexivity.
Qed.

Lemma wall_time_only_targets_raise_witness :
  _compute_chunksize floor_log2_exact Qdiv Qmult Qplus quantile_nearest
    linregress_exact 100 (Some {[ "wall_time" := (60 # 1)%Q ]})
    [(100, (30 # 1)%Q, (5 # 1)%Q); (100, (60 # 1)%Q, (5 # 1)%Q)]
    = Raise (KeyError "memory").
Proof.
  apply (wall_time_only_targets_raise floor_log2_exact Qdiv Qmult Qplus
           quantile_nearest linregress_exact 100 (60 # 1)%Q
           [(100, (30 # 1)%Q, (5 # 1)%Q); (100, (60 # 1)%Q, (5 # 1)%Q)]).
  simpl. lia.
Defined.

(** X5: for a size of at least 1 and any draw, [_sample_chunksize] returns
    a size between 1 and the size given; when the size given is a power of
    two, as the sizes [_compute_chunksize] returns are, so is the result. *)
Theorem sample_chunksize_bounds (u : Q) (chunksize : Z) :
  1 <= chunksize ->
  1 <= _sample_chunksize u chunksize <= chunksize /\
  ((exists k, 0 <= k /\ chunksize = 2 ^ k) ->
   exists j, 0 <= j /\ _sample_chunksize u chunksize = 2 ^ j).
Proof.
  intros Hc. unfold _sample_chunksize, random_choices2.
  destruct (Qlt_bool _ _).
  - split; [lia | auto].
  - pose proof (Z.div_pos chunksize 2 ltac:(lia) ltac:(lia)).
    pose proof (Z.div_le_upper_bound chunksize 2 chunksize ltac:(lia)
                  ltac:(lia)).
    split; [lia|]. intros (k & Hk & ->).
    destruct (Z.eq_dec k 0) as [-> | Hne].
    + exists 0. split; [lia | reflexivity].
    + exists (k - 1). split; [lia|].
      replace k with (Z.succ (k - 1)) at 1 by lia.
      rewrite Z.pow_succ_r by lia.
      rewrite Z.mul_comm, Z.div_mul by lia.
      pose proof (Z.pow_pos_nonneg 2 (k - 1) ltac:(lia) ltac:(lia)). lia.
Qed.

Lemma sample_chunksize_bounds_witness :
  1 <= _sample_chunksize (95 # 100) 64 <= 64.
Proof.
  apply (sample_chunksize_bounds (95 # 100) 64). lia.
Defined.

(** X6: when the first sample has a negative memory measurement (the
    value for "not measured") and no usable [wall_time] target is given,
    no dimension gives an estimate, whatever the other samples say, and
    [_compute_chunksize] returns the floored base size. *)
Theorem unmeasured_memory_gives_base
    floor_log2 float_div float_mul float_add quantile linregress
    (base : Z) (targets : gmap string Q)
    (target_memory : Q) (evs : Z) (time mem : Q) (rest : list report) :
  targets !! "memory" = Some target_memory ->
  (targets !! "wall_time" = None \/ targets !! "wall_time" = Some 0%Q) ->
  (mem < 0)%Q ->
  _compute_chunksize floor_log2 float_div float_mul float_add quantile
    linregress base (Some targets) ((evs, time, mem) :: rest)
    = Ok (_floor_to_pow2 floor_log2 (inject_Z base)).
Proof.
  intros Hmem Htime Hneg.
  unfold _compute_chunksize, dimension_estimates. rewrite Hmem.
  destruct (1 <? _); [|reflexivity].
  assert (Et : estimate_for float_div float_mul float_add quantile
                 linregress (targets !! "wall_time")
                 (time_pairs ((evs, time, mem) :: rest)) = None).
  { destruct Htime as [-> | ->]; reflexivity. }
  assert (Em : estimate_for float_div float_mul float_add quantile
                 linregress (Some target_memory)
                 (memory_pairs ((evs, time, mem) :: rest)) = None).
  { unfold estimate_for. destruct (truthy target_memory); [|reflexivity].
    simpl. apply Qlt_bool_iff in Hneg. now rewrite Hneg. }
  cbv zeta. rewrite Et, Em. reflexivity.
Qed.

Lemma unmeasured_memory_gives_base_witness :
  _compute_chunksize floor_log2_exact Qdiv Qmult Qplus quantile_nearest
    linregress_exact 100 (Some {[ "memory" := (1000 # 1)%Q ]})
    [(100, (30 # 1)%Q, (-1 # 1)%Q); (100, (60 # 1)%Q, (500 # 1)%Q);
     (100, (60 # 1)%Q, (500 # 1)%Q)]
    = Ok (_floor_to_pow2 floor_log2_exact (inject_Z 100)).
Proof.
  apply (unmeasured_memory_gives_base floor_log2_exact Qdiv Qmult Qplus
           quantile_nearest linregress_exact 100
           {[ "memory" := (1000 # 1)%Q ]} (1000 # 1)%Q 100 (30 # 1)%Q
           (-1 # 1)%Q).
  - reflexivity.
  - left. reflexivity.
  - reflexivity.
Defined.

End EstimatorCoverage.

Section StatisticsCoverage.

Import Tasks Statistics.

(** ** The statistics *)

Lemma stats_inc_lookup (stat : string) (delta : Z) (s : gmap string Z) :
  stats_inc stat delta s !! stat = Some (default 0 (s !! stat) + delta).
Proof.
  unfold stats_inc. destruct (s !! stat) as [v|] eqn:E; simpl;
    now rewrite lookup_insert_eq.
Qed.

Lemma stats_inc_other (stat k : string) (delta : Z) (s : gmap string Z) :
  k <> stat -> stats_inc stat delta s !! k = s !! k.
Proof.
  intros Hne. unfold stats_inc.
  destruct (s !! stat); now rewrite lookup_insert_ne.
Qed.

(** X7: [Stats.inc] is a counter: after any sequence of increments of one
    statistic its value is the previous value, 0 when it was not there,
    plus the sum of the increments, and no other statistic has changed. *)
Theorem stats_inc_adds_up (stat : string) (delta : Z) (deltas : list Z)
    (s : gmap string Z) :
  let s' := foldl (fun m d => stats_inc stat d m) s (delta :: deltas) in
  s' !! stat = Some (default 0 (s !! stat) + foldr Z.add 0 (delta :: deltas))
  /\ forall k, k <> stat -> s' !! k = s !! k.
Proof.
  cbv zeta. revert s delta.
  induction deltas as [|d ds IH]; intros s delta.
  - simpl. split; [rewrite stats_inc_lookup; f_equal; lia|].
    intros k Hk. now apply stats_inc_other.
  - destruct (IH (stats_inc stat delta s) d) as [Hv Ho].
    change (foldl (fun m d0 => stats_inc stat d0 m) s (delta :: d :: ds))
      with (foldl (fun m d0 => stats_inc stat d0 m)
                  (stats_inc stat delta s) (d :: ds)).
    split.
    + rewrite Hv, stats_inc_lookup. simpl. f_equal. lia.
    + intros k Hk. rewrite (Ho k Hk). now apply stats_inc_other.
Qed.

Lemma stats_min_lookup (stat : string) (value : Z) (s : gmap string Z) :
  stats_min stat value s !! stat
    = Some (match s !! stat with Some v => Z.min v value | None => value end).
Proof.
  unfold stats_min. destruct (s !! stat); now rewrite lookup_insert_eq.
Qed.

Lemma stats_max_lookup (stat : string) (value : Z) (s : gmap string Z) :
  stats_max stat value s !! stat
    = Some (match s !! stat with Some v => Z.max v value | None => value end).
Proof.
  unfold stats_max. destruct (s !! stat); now rewrite lookup_insert_eq.
Qed.

Lemma stats_min_fold (stat : string) (values : list Z) :
  forall (s : gmap string Z) (v : Z),
  s !! stat = Some v ->
  exists m,
    foldl (fun t x => stats_min stat x t) s values !! stat = Some m /\
    m ∈ v :: values /\ Forall (fun x => m <= x) (v :: values).
Proof.
  induction values as [|x xs IH]; intros s v Hv; simpl.
  - exists v. split; [exact Hv|]. split; [constructor|].
    constructor; [lia | constructor].
  - destruct (IH (stats_min stat x s) (Z.min v x)) as (m & Hm & Hin & Hall).
    { rewrite stats_min_lookup, Hv. reflexivity. }
    exists m. split; [exact Hm|].
    apply Forall_cons in Hall as [Hmin Hall]. split.
    + apply elem_of_cons in Hin as [-> | Hin].
      * destruct (Z.min_spec v x) as [[_ ->] | [_ ->]];
          [constructor | do 2 constructor].
      * now do 2 constructor.
    + constructor; [lia|]. constructor; [lia | exact Hall].
Qed.

Lemma stats_max_fold (stat : string) (values : list Z) :
  forall (s : gmap string Z) (v : Z),
  s !! stat = Some v ->
  exists m,
    foldl (fun t x => stats_max stat x t) s values !! stat = Some m /\
    m ∈ v :: values /\ Forall (fun x => x <= m) (v :: values).
Proof.
  induction values as [|x xs IH]; intros s v Hv; simpl.
  - exists v. split; [exact Hv|]. split; [constructor|].
    constructor; [lia | constructor].
  - destruct (IH (stats_max stat x s) (Z.max v x)) as (m & Hm & Hin & Hall).
    { rewrite stats_max_lookup, Hv. reflexivity. }
    exists m. split; [exact Hm|].
    apply Forall_cons in Hall as [Hmax Hall]. split.
    + apply elem_of_cons in Hin as [-> | Hin].
      * destruct (Z.max_spec v x) as [[_ ->] | [_ ->]];
          [do 2 constructor | constructor].
      * now do 2 constructor.
    + constructor; [lia|]. constructor; [lia | exact Hall].
Qed.

(** X8: [Stats.min] and [Stats.max] keep the extremum: after a statistic
    that was not there has been fed a sequence of values through [min]
    (through [max]), it holds one of these values, and none of them is
    smaller (larger). *)
Theorem stats_min_max_extremum (stat : string) (value : Z)
    (values : list Z) (s : gmap string Z) :
  s !! stat = None ->
  (exists m,
     foldl (fun t x => stats_min stat x t) s (value :: values) !! stat
       = Some m /\
     m ∈ value :: values /\ Forall (fun x => m <= x) (value :: values)) /\
  (exists m,
     foldl (fun t x => stats_max stat x t) s (value :: values) !! stat
       = Some m /\
     m ∈ value :: values /\ Forall (fun x => x <= m) (value :: values)).
Proof.
  intros Hnone. split.
  - simpl. apply stats_min_fold. now rewrite stats_min_lookup, Hnone.
  - simpl. apply stats_max_fold. now rewrite stats_max_lookup, Hnone.
Qed.

Lemma stats_min_max_extremum_witness :
  exists m,
    foldl (fun t x => stats_min "min_chunksize_after_split" x t) ∅
          [50; 25; 100] !! "min_chunksize_after_split" = Some m /\
    m ∈ [50; 25; 100] /\ Forall (fun x => m <= x) [50; 25; 100].
Proof.
  apply (stats_min_max_extremum "min_chunksize_after_split" 50 [25; 100] ∅).
  reflexivity.
Defined.

(** X9: [Stats.get] never returns the default it is given: it returns the
    value stored, or 0 for a statistic that is not there, and then the
    statistic is there with the value 0; asking again returns the same
    value and changes nothing. *)
Theorem stats_get_ignores_default (stat : string) (given : option Z)
    (s : gmap string Z) :
  fst (stats_get stat given s) = default 0 (s !! stat) /\
  snd (stats_get stat given s) !! stat
    = Some (fst (stats_get stat given s)) /\
  (forall k, k <> stat -> snd (stats_get stat given s) !! k = s !! k) /\
  (forall given',
     stats_get stat given' (snd (stats_get stat given s))
       = (fst (stats_get stat given s), snd (stats_get stat given s))).
Proof.
  unfold stats_get. destruct (s !! stat) as [v|] eqn:E; simpl.
  - split; [reflexivity|]. split; [exact E|]. split; [reflexivity|].
    intros _. now rewrite E.
  - split; [reflexivity|]. split; [apply lookup_insert_eq|].
    split; [intros k Hk; now apply lookup_insert_ne|].
    intros _. now rewrite lookup_insert_eq.
Qed.

End StatisticsCoverage.

Section ResourcesCoverage.

Import Resources.

(** ** The declaration of resources *)

Lemma category_calls_shape (ex : ResourceOptions) (category : string) :
  Forall (fun call =>
            match call with
            | specify_category_max_resources c r =>
              c = category /\ r = default_resources ex
            | specify_category_mode c _ =>
              c = category /\ String.eqb (resources_mode ex) "fixed" = false
            | activate_fast_abort_category c m =>
              c = category /\ fast_terminate_workers ex = Some m /\ 1 < m
            | _ => False
            end) (category_calls ex category).
Proof.
  unfold category_calls.
  repeat (apply Forall_app; split).
  - repeat constructor.
  - destruct (String.eqb (resources_mode ex) "fixed"); simpl;
      [constructor|].
    destruct (_ && _); repeat constructor.
  - destruct (fast_terminate_workers ex) as [m|]; simpl; [|constructor].
    destruct (negb (m =? 0) && (1 <? m)) eqn:E; [|constructor].
    apply andb_true_iff in E as [_ E]. apply Z.ltb_lt in E.
    repeat constructor. exact E.
Qed.

Lemma category_calls_no_monitoring (ex : ResourceOptions) (w : bool)
    (cats : list string) :
  enable_monitoring w ∉ concat (map (category_calls ex) cats).
Proof.
  induction cats as [|c cats IH]; cbn [map concat];
    [apply not_elem_of_nil|].
  intros Hin. apply elem_of_app in Hin as [Hin | Hin]; [|now apply IH].
  pose proof (category_calls_shape ex c) as Hshape.
  rewrite Forall_forall in Hshape. exact (Hshape _ Hin).
Qed.

(** X26: [_declare_resources] enables the monitoring exactly when a
    [resource_monitor] other than ["off"] is given or the resources are not
    ["fixed"]. The watchdog is off exactly for [resource_monitor =
    "measure"]: with the monitor ["off"] or missing and an automatic
    allocation of resources, monitoring is enabled with the watchdog on. *)
Theorem monitoring_enabled_when_needed (ex : ResourceOptions) :
  let calls := _declare_resources ex in
  let wanted :=
    given_string (resource_monitor ex)
    && negb (is_string (resource_monitor ex) "off") in
  let automatic := negb (String.eqb (resources_mode ex) "fixed") in
  (forall w, enable_monitoring w ∈ calls <->
             wanted || automatic = true /\
             w = negb (is_string (resource_monitor ex) "measure")) /\
  (enable_monitoring false ∈ calls <-> resource_monitor ex = Some "measure") /\
  (wanted = false -> automatic = true -> enable_monitoring true ∈ calls).
Proof.
  cbv zeta.
  assert (Hiff : forall w,
            enable_monitoring w ∈ _declare_resources ex <->
            given_string (resource_monitor ex)
            && negb (is_string (resource_monitor ex) "off")
            || negb (String.eqb (resources_mode ex) "fixed") = true /\
            w = negb (is_string (resource_monitor ex) "measure")).
  { intros w. unfold _declare_resources.
    rewrite !elem_of_app. split.
    - intros [Hin | [Hin | Hin]].
      + repeat (apply elem_of_cons in Hin as [Hin | Hin]; [discriminate|]).
        now apply elem_of_nil in Hin.
      + unfold monitor_enabled, watchdog_enabled in Hin.
        destruct (resource_monitor ex) as [s|]; simpl in *.
        * destruct (String.eqb s "") eqn:E1; simpl in *.
          -- apply String.eqb_eq in E1. subst s. simpl in *.
             destruct (String.eqb (resources_mode ex) "fixed"); simpl in *;
               [now apply elem_of_nil in Hin|].
             apply list_elem_of_singleton in Hin. injection Hin as ->. auto.
          -- destruct (String.eqb s "off") eqn:E2; simpl in *.
             ++ apply String.eqb_eq in E2. subst s. simpl in *.
                destruct (String.eqb (resources_mode ex) "fixed");
                  simpl in *; [now apply elem_of_nil in Hin|].
                apply list_elem_of_singleton in Hin. injection Hin as ->.
                auto.
             ++ assert (Hon : (if negb (String.eqb (resources_mode ex) "fixed")
                               then true else true) = true)
                  by now destruct (negb _).
                rewrite Hon in Hin.
                apply list_elem_of_singleton in Hin. injection Hin as ->.
                split; [reflexivity|]. now destruct (String.eqb s "measure").
        * destruct (String.eqb (resources_mode ex) "fixed"); simpl in *;
            [now apply elem_of_nil in Hin|].
          apply list_elem_of_singleton in Hin. injection Hin as ->. auto.
      + exfalso. exact (category_calls_no_monitoring ex w _ Hin).
    - intros [Hon ->]. right. left.
      unfold monitor_enabled, watchdog_enabled.
      destruct (resource_monitor ex) as [s|]; simpl in *.
      + destruct (String.eqb s "") eqn:E1; simpl in *.
        * apply String.eqb_eq in E1. subst s. simpl in *.
          rewrite Hon. simpl. apply list_elem_of_singleton. reflexivity.
        * destruct (String.eqb s "off") eqn:E2; simpl in *.
          -- apply String.eqb_eq in E2. subst s. simpl in *.
             rewrite Hon. simpl. apply list_elem_of_singleton. reflexivity.
          -- assert (Hon' : (if negb (String.eqb (resources_mode ex) "fixed")
                             then true else true) = true)
               by now destruct (negb _).
             rewrite Hon'. apply list_elem_of_singleton.
             now destruct (String.eqb s "measure").
      + rewrite Hon. simpl. apply list_elem_of_singleton. reflexivity. }
  split; [exact Hiff|]. split.
  - rewrite Hiff. split.
    + intros [_ Hw]. destruct (resource_monitor ex) as [s|]; simpl in *;
        [|discriminate].
      destruct (String.eqb s "measure") eqn:E; [|discriminate].
      apply String.eqb_eq in E. now subst.
    + intros ->. split; reflexivity.
  - intros Hwanted Hauto. apply Hiff. rewrite Hwanted, Hauto.
    split; [reflexivity|].
    destruct (resource_monitor ex) as [s|]; simpl in *; [|reflexivity].
    destruct (String.eqb s "measure") eqn:E; [|reflexivity].
    apply String.eqb_eq in E. subst s. discriminate.
Qed.

Lemma in_category_calls (ex : ResourceOptions) (call : BackendCall)
    (cats : list string) :
  call ∈ concat (map (category_calls ex) cats) <->
  exists c, c ∈ cats /\ call ∈ category_calls ex c.
Proof.
  induction cats as [|c cats IH]; cbn [map concat].
  - split; [intros H; now apply elem_of_nil in H|].
    intros (c & H & _). now apply elem_of_nil in H.
  - rewrite elem_of_app, IH. split.
    + intros [H | (c' & H1 & H2)].
      * exists c. split; [apply list_elem_of_here | exact H].
      * exists c'. split; [now apply list_elem_of_further | exact H2].
    + intros (c' & H1 & H2). apply elem_of_cons in H1 as [-> | H1];
        [now left | right; eauto].
Qed.

Lemma set_if_given_lookup (key k : string) (o : option Z)
    (d : gmap string Z) :
  set_if_given key o d !! k
  = if String.eqb k key && given o then o else d !! k.
Proof.
  unfold set_if_given. destruct o as [v|]; simpl.
  - destruct (negb (v =? 0)); simpl.
    + destruct (String.eqb k key) eqn:E; simpl.
      * apply String.eqb_eq in E. subst. apply lookup_insert_eq.
      * apply String.eqb_neq in E. now apply lookup_insert_ne.
    + now rewrite andb_false_r.
  - now rewrite andb_false_r.
Qed.

(** X27: every category, ["default"], ["preprocessing"], ["processing"] and
    ["accumulating"], is given the same maximum resources: those of
    [cores], [memory], [disk] and [gpus] that are set and not 0, and
    nothing else, so that a resource given as 0 is left to the backend.
    With ["fixed"] resources no allocation mode is specified; otherwise the
    category is left in the mode [MAX], except ["processing"] under
    ["max-throughput"], which is first put in [MAX] and then in
    [MAX_THROUGHPUT]. Fast abort is activated for the category exactly when
    [fast_terminate_workers] is above 1, with that multiplier. *)
Theorem categories_declared (ex : ResourceOptions) :
  let calls := _declare_resources ex in
  (forall k,
     default_resources ex !! k
     = if String.eqb k "gpus" && given (gpus ex) then gpus ex
       else if String.eqb k "disk" && given (disk ex) then disk ex
       else if String.eqb k "memory" && given (memory ex) then memory ex
       else if String.eqb k "cores" && given (cores ex) then cores ex
       else None) /\
  (forall k v, default_resources ex !! k = Some v -> v <> 0) /\
  Forall (fun category =>
            specify_category_max_resources category (default_resources ex)
              ∈ calls /\
            mode_of calls category
              = (if String.eqb (resources_mode ex) "fixed" then None
                 else if String.eqb category "processing"
                         && String.eqb (resources_mode ex) "max-throughput"
                 then Some WORK_QUEUE_ALLOCATION_MODE_MAX_THROUGHPUT
                 else Some WORK_QUEUE_ALLOCATION_MODE_MAX) /\
            (forall m, activate_fast_abort_category category m ∈ calls <->
                       fast_terminate_workers ex = Some m /\ 1 < m))
         categories.
Proof.
  cbv zeta.
  assert (Hres : forall k,
     default_resources ex !! k
     = if String.eqb k "gpus" && given (gpus ex) then gpus ex
       else if String.eqb k "disk" && given (disk ex) then disk ex
       else if String.eqb k "memory" && given (memory ex) then memory ex
       else if String.eqb k "cores" && given (cores ex) then cores ex
       else None).
  { intros k. unfold default_resources.
    rewrite !set_if_given_lookup. reflexivity. }
  split; [exact Hres|]. split.
  { intros k v. rewrite Hres.
    assert (Hg : forall o, given o = true -> o = Some v -> v <> 0).
    { intros o Ho ->. simpl in Ho. apply negb_true_iff, Z.eqb_neq in Ho.
      exact Ho. }
    repeat match goal with
           | |- context [?a && given ?o] =>
             destruct a; simpl;
             [destruct (given o) eqn:?; [now apply Hg|]|]
           end; discriminate. }
  assert (Hmode : forall category,
            category ∈ categories ->
            mode_of (_declare_resources ex) category
            = (if String.eqb (resources_mode ex) "fixed" then None
               else if String.eqb category "processing"
                       && String.eqb (resources_mode ex) "max-throughput"
               then Some WORK_QUEUE_ALLOCATION_MODE_MAX_THROUGHPUT
               else Some WORK_QUEUE_ALLOCATION_MODE_MAX)).
  { intros category Hcat. unfold _declare_resources.
    unfold mode_of. rewrite !foldl_app. cbn [foldl].
    replace (foldl _ None (if monitor_enabled ex then _ else _))
      with (@None AllocationMode) by now destruct (monitor_enabled ex).
    unfold categories, category_calls in *. cbn [map concat].
    destruct (String.eqb (resources_mode ex) "fixed");
      destruct (String.eqb (resources_mode ex) "max-throughput");
      destruct (given (fast_terminate_workers ex)
                && (1 <? default 0 (fast_terminate_workers ex)));
      repeat (apply elem_of_cons in Hcat as [-> | Hcat]; [reflexivity|]);
      now apply elem_of_nil in Hcat. }
  assert (Hin : forall call,
            (exists c, c ∈ categories /\ call ∈ category_calls ex c) ->
            call ∈ _declare_resources ex).
  { intros call H. unfold _declare_resources.
    apply elem_of_app. right. apply elem_of_app. right.
    now apply in_category_calls. }
  apply Forall_forall. intros category Hcat.
  split; [|split; [now apply Hmode|]].
  - apply Hin. exists category. split; [exact Hcat|].
    unfold category_calls. apply elem_of_app. left.
    apply list_elem_of_here.
  - intros m. split.
    + unfold _declare_resources. rewrite !elem_of_app.
      intros [H | [H | H]].
      * repeat (apply elem_of_cons in H as [H | H]; [discriminate|]).
        now apply elem_of_nil in H.
      * destruct (monitor_enabled ex).
        -- apply list_elem_of_singleton in H. discriminate.
        -- now apply elem_of_nil in H.
      * apply in_category_calls in H as (c & _ & H).
        pose proof (category_calls_shape ex c) as Hshape.
        rewrite Forall_forall in Hshape. exact (proj2 (Hshape _ H)).
    + intros [Hm Hlt]. apply Hin. exists category. split; [exact Hcat|].
      unfold category_calls. apply elem_of_app. right.
      apply elem_of_app. right. rewrite Hm. simpl.
      assert (E : negb (m =? 0) && (1 <? m) = true).
      { apply andb_true_iff. split.
        - apply negb_true_iff, Z.eqb_neq. lia.
        - apply Z.ltb_lt. exact Hlt. }
      rewrite E. apply list_elem_of_here.
Qed.

End ResourcesCoverage.
